(** * Enhanced Code Interpreter: a shallow embedding of
      [src/tools/enhanced_code_interpreter.py]

    The development follows the Python module top to bottom: the string
    primitives the module relies on, the insertion-ordered dictionaries
    that hold namespaces, the [Valves] configuration, the [Tools] store
    with its three tool methods, and the two standalone helpers that are
    injected into every execution namespace.

    Conventions.
    - A Python [str] is a Rocq [string]; one [ascii] stands for one
      character.  The only non-ASCII text of the module is the dash of the
      timing line, a literal whose length is never measured.
    - A Python [int] is a [Z].
    - A Python [dict] whose iteration order is observable (namespaces,
      table rows) is an insertion-ordered association list ([pydict]);
      the two dictionaries of [Tools] that are only ever indexed by the
      caller key are [gmap]s.
    - What the interpreter does with a snippet is not part of the module:
      [exec], the worker thread and [asyncio.wait_for] are represented by
      what the coordinator observes when the wait is over, which includes
      an exception that none of the module's handlers catches.
    - Every namespace is handed the same module objects and the same
      builtins.  What snippets leave in them is a state of the process,
      which sessions carry from one call to the next.  The [Tools]
      instance itself is reached by a snippet only through the namespace
      it is handed; a snippet that digs the instance out of the
      interpreter is not modelled.
    - Python's floats and its division [/] belong to the runtime and are
      parameters of [_quick_stats]. *)

From Stdlib Require Import ZArith QArith String Ascii List.
From stdpp Require Import base tactics option list gmap strings pretty sorting.

Close Scope Q_scope.
Open Scope string_scope.

(** ** Python string primitives *)

Module PyStr.

(** [s.split(sep)] for a one-character separator: never returns the
    empty list, and splitting the empty string gives one empty field. *)
Fixpoint split (sep : ascii) (s : string) : list string :=
  match s with
  | EmptyString => [EmptyString]
  | String c rest =>
      if Ascii.eqb c sep then EmptyString :: split sep rest
      else match split sep rest with
           | [] => [String c EmptyString]
           | w :: ws => String c w :: ws
           end
  end.

(** [c.isspace()] for the characters an [ascii] can stand for (code
    points below 256): tab to carriage return, the four separators
    [\x1c]-[\x1f], space, next line [\x85] and no-break space [\xa0]. *)
Definition isspace (c : ascii) : bool :=
  let n := nat_of_ascii c in
  ((9 <=? n)%nat && (n <=? 13)%nat) || ((28 <=? n)%nat && (n <=? 32)%nat)
  || (n =? 133)%nat || (n =? 160)%nat.

Fixpoint lstrip (s : string) : string :=
  match s with
  | EmptyString => EmptyString
  | String c rest => if isspace c then lstrip rest else s
  end.

Fixpoint rstrip (s : string) : string :=
  match s with
  | EmptyString => EmptyString
  | String c rest =>
      match rstrip rest with
      | EmptyString => if isspace c then EmptyString else String c EmptyString
      | r => String c r
      end
  end.

(** [s.strip()] *)
Definition strip (s : string) : string := rstrip (lstrip s).

(** Truthiness of a string: [if s:] *)
Definition truthy (s : string) : bool :=
  match s with EmptyString => false | _ => true end.

(** [s.startswith(p)] *)
Definition startswith (s p : string) : bool := String.prefix p s.

(** [p in s] *)
Fixpoint contains (p s : string) : bool :=
  String.prefix p s ||
  match s with
  | EmptyString => false
  | String _ rest => contains p rest
  end.

(** [len(s)] *)
Definition len (s : string) : Z := Z.of_nat (String.length s).

Fixpoint take (n : nat) (s : string) : string :=
  match n, s with
  | S n', String c rest => String c (take n' rest)
  | _, _ => EmptyString
  end.

(** [s[:k]]: a negative bound counts from the end. *)
Definition slice_to (s : string) (k : Z) : string :=
  if (0 <=? k)%Z then take (Z.to_nat k) s
  else take (String.length s - Z.to_nat (- k)) s.

(** [c * n] for a one-character string [c]. *)
Fixpoint repeat (c : ascii) (n : nat) : string :=
  match n with
  | O => EmptyString
  | S n' => String c (repeat c n')
  end.

(** [s.ljust(w)] *)
Definition ljust (s : string) (w : nat) : string :=
  s ++ repeat " "%char (w - String.length s).

(** [sep.join(parts)] *)
Definition join (sep : string) (parts : list string) : string :=
  String.concat sep parts.

(** Digit grouping of the [:,] format: a comma before every group of
    three digits that is not the first. *)
Fixpoint group_digits (digits : string) : string :=
  match digits with
  | EmptyString => EmptyString
  | String c rest =>
      let k := String.length rest in
      String c (if (0 <? k)%nat && (k mod 3 =? 0)%nat
                then "," ++ group_digits rest
                else group_digits rest)
  end.

(** [f"{n:,}"] for a non-negative integer. *)
Definition fmt_thousands (n : Z) : string := group_digits (pretty n).

Definition nl : string := String (ascii_of_nat 10) EmptyString.

End PyStr.

(** ** Python dictionaries with observable order *)

Module PyDict.
Section Dict.
Context {V : Type}.

(** [d.get(k)] / [d[k]] *)
Fixpoint get (k : string) (d : list (string * V)) : option V :=
  match d with
  | [] => None
  | (k', v) :: rest => if decide (k' = k) then Some v else get k rest
  end.

(** [d[k] = v]: an existing key keeps its position, a new key goes
    to the end. *)
Fixpoint set (k : string) (v : V) (d : list (string * V)) : list (string * V) :=
  match d with
  | [] => [(k, v)]
  | (k', v') :: rest =>
      if decide (k' = k) then (k', v) :: rest else (k', v') :: set k v rest
  end.

(** [d.update(other)] *)
Definition update (d other : list (string * V)) : list (string * V) :=
  fold_left (fun acc kv => set (fst kv) (snd kv) acc) other d.

(** [list(d.keys())] *)
Definition keys (d : list (string * V)) : list string := map fst d.
End Dict.
End PyDict.

Abbreviation pydict V := (list (string * V)).

(** ** Values held by a namespace *)

Inductive helper := QuickStats | AsTable.

Inductive value :=
| VInt (z : Z)
| VStr (s : string)
| VBuiltins                    (* the [__builtins__] module *)
| VModule (name : string)      (* the module object [__import__(name)] returns,
                                  one per process and name *)
| VHelper (h : helper)         (* [_quick_stats] or [_as_table] *)
| VObject (tag : positive).    (* any other object *)

(** ** Configuration *)

Record Valves := {
  max_execution_time : Z;
  max_output_length : Z;
  sandbox_mode : bool;
  auto_imports : string;
  blocked_patterns : string
}.

Definition default_valves : Valves := {|
  max_execution_time := 30;
  max_output_length := 10000;
  sandbox_mode := true;
  auto_imports :=
    "math,random,json,datetime,collections,itertools,re,statistics,textwrap,functools,hashlib,base64";
  blocked_patterns :=
    "import os,import subprocess,import shutil,import socket,import http.client,__import__,importlib,open(,compile("
|}.

(** The [ge]/[le] bounds of the two integer fields. *)
Definition Valves_valid (v : Valves) : Prop :=
  (1 <= max_execution_time v <= 120)%Z /\
  (100 <= max_output_length v <= 100000)%Z.

(** The [__user__] dictionary handed in by the host: always carries an
    ["id"]; the ["valves"] entry may be missing, and when present may be
    an object without the [show_execution_time] attribute. *)
Inductive user_valves :=
| UserValves (show_execution_time : bool)
| OtherObject.

Record user := {
  id : string;
  uvalves : option user_valves
}.

(** ** The store *)

Record Tools := {
  valves : Valves;
  _state : gmap string (pydict value);
  _exec_counts : gmap string Z
}.

(** [Tools.__init__] *)
Definition init : Tools :=
  {| valves := default_valves; _state := ∅; _exec_counts := ∅ |}.

(** What the coordinator finds when [asyncio.wait_for] is over.  The
    [try] around the wait has two handlers, [asyncio.TimeoutError] and
    [Exception]; whatever else the snippet raises ([SystemExit],
    [KeyboardInterrupt], any other [BaseException]) leaves the wait and
    the call. *)
Inductive wait_outcome :=
| Returned                      (* the worker finished [exec] *)
| Raised (trace : string)       (* an [Exception]; [traceback.format_exc()] *)
| TimedOut                      (* [asyncio.TimeoutError] *)
| Escaped (exc : string).       (* a [BaseException] no handler catches *)

(** The wait ended in an exception that [execute_code] does not catch. *)
Definition escapes (o : wait_outcome) : bool :=
  match o with
  | Escaped _ => true
  | _ => false
  end.

Record observation := {
  obs_outcome : wait_outcome;
  obs_stdout : string;            (* [buf.getvalue()] *)
  obs_ns : pydict value;          (* the bindings of [ns] at that moment *)
  obs_elapsed : Q                 (* [time.perf_counter() - start] *)
}.

(** Effects that leave the coordinator. *)
Inductive effect :=
| Status (description : string) (done : bool)   (* [__event_emitter__] *)
| RunSnippet (code : string) (ns : pydict value). (* [to_thread(_run)] *)

(** What a tool call leaves behind.  [text] is the string returned, or
    [None] when the call raised instead of returning. *)
Record reply := {
  text : option string;
  store : Tools;
  effects : list effect
}.

Section Interpreter.

(** The Python runtime the module calls into. *)
Variable import_ok : string -> bool.      (* [__import__] does not raise *)
(* what the coordinator observes of [exec(code, ns)] under a timeout, as
   the snippet behaves at the time of this call: that may depend on what
   earlier snippets, of any caller, left in the objects all namespaces
   share (modules, builtins); sessions below carry that state along *)
Variable worker : string -> pydict value -> Z -> observation.
Variable repr : value -> string.
Variable type_name : value -> string.     (* [type(v).__name__] *)
Variable getsizeof : value -> Z.
Variable fmt_3f : Q -> string.            (* [f"{x:.3f}"] *)

(** *** Internal helpers *)

Definition _uid (usr : option user) : string :=
  match usr with
  | Some u => id u
  | None => "_anon"
  end.

(** Returns the store with the caller's entry created, and the entry. *)
Definition _user_state (T : Tools) (uid : string) : Tools * pydict value :=
  match _state T !! uid with
  | Some st => (T, st)
  | None =>
      ({| valves := valves T;
          _state := <[uid := []]> (_state T);
          _exec_counts := _exec_counts T |}, [])
  end.

Definition blocked_list (v : Valves) : list string :=
  filter (fun p => PyStr.truthy p = true)
         (map PyStr.strip (PyStr.split ","%char (blocked_patterns v))).

Definition _validate (v : Valves) (code : string) : list string :=
  if sandbox_mode v then
    map (fun p => "Blocked: `" ++ p ++ "`")
        (filter (fun p => PyStr.contains p code = true) (blocked_list v))
  else [].

Fixpoint load_modules (names : list string) (ns : pydict value) : pydict value :=
  match names with
  | [] => ns
  | raw :: rest =>
      let mod_name := PyStr.strip raw in
      if PyStr.truthy mod_name then
        if import_ok mod_name
        then load_modules rest (PyDict.set mod_name (VModule mod_name) ns)
        else load_modules rest ns
      else load_modules rest ns
  end.

Definition _build_namespace (v : Valves) (user_state : pydict value) : pydict value :=
  let ns := [("__builtins__", VBuiltins)] in
  let ns := load_modules (PyStr.split ","%char (auto_imports v)) ns in
  let ns := PyDict.update ns user_state in
  let ns := PyDict.set "quick_stats" (VHelper QuickStats) ns in
  let ns := PyDict.set "as_table" (VHelper AsTable) ns in
  ns.

(** *** [execute_code] *)

(** The names of [save_vars], in order. *)
Definition save_names (save_vars : string) : list string :=
  if PyStr.truthy save_vars then
    filter (fun n => PyStr.truthy n = true)
           (map PyStr.strip (PyStr.split ","%char save_vars))
  else [].

(** One turn of the persistence loop; [acc] is the caller's stored
    dictionary together with the list [saved]. *)
Definition persist_one (ns : pydict value)
    (acc : pydict value * list string) (name : string)
    : pydict value * list string :=
  match PyDict.get name ns with
  | Some v =>
      if negb (PyStr.startswith name "_")
      then (PyDict.set name v (fst acc), (snd acc ++ [name])%list)
      else acc
  | None => acc
  end.

Definition persist (ns state : pydict value) (save_vars : string)
    : pydict value * list string :=
  fold_left (persist_one ns) (save_names save_vars) (state, []).

(** The value of [error] after the [try]; it is still [None] when the
    exception is not caught. *)
Definition error_of (v : Valves) (o : wait_outcome) : option string :=
  match o with
  | Returned => None
  | Raised trace => Some trace
  | TimedOut => Some ("Timed out after " ++ pretty (max_execution_time v) ++ "s")
  | Escaped _ => None
  end.

Definition output_text (v : Valves) (stdout : string) : string :=
  let text := PyStr.slice_to stdout (max_output_length v) in
  if (PyStr.len stdout >? max_output_length v)%Z
  then text ++ PyStr.nl ++ "... truncated (" ++ PyStr.fmt_thousands (PyStr.len stdout)
            ++ " total chars)"
  else text.

Definition output_part (v : Valves) (stdout : string) : list string :=
  if PyStr.truthy stdout
  then ["**Output:**" ++ PyStr.nl ++ "```" ++ PyStr.nl ++ output_text v stdout
          ++ PyStr.nl ++ "```"]
  else [].

(** [if error:] on a value that is [None] or a string. *)
Definition has_error (error : option string) : bool :=
  match error with
  | Some e => PyStr.truthy e
  | None => false
  end.

Definition error_part (error : option string) : list string :=
  if has_error error
  then ["**Error:**" ++ PyStr.nl ++ "```" ++ PyStr.nl ++ default "" error
          ++ PyStr.nl ++ "```"]
  else [].

Definition saved_part (saved : list string) : list string :=
  match saved with
  | [] => []
  | _ => ["**Saved:** " ++ PyStr.join ", " (map (fun n => "`" ++ n ++ "`") saved)]
  end.

Definition show_time (usr : option user) : bool :=
  match usr with
  | Some u =>
      match uvalves u with
      | Some (UserValves b) => b
      | Some OtherObject => true
      | None => true
      end
  | None => true
  end.

Definition time_part (usr : option user) (count : Z) (elapsed : Q) : list string :=
  if show_time usr
  then ["*Execution #" ++ pretty count ++ " — " ++ fmt_3f elapsed ++ "s*"]
  else [].

Definition no_output : string := "*Executed successfully (no output).*".

Definition build_parts (v : Valves) (usr : option user) (stdout : string)
    (error : option string) (saved : list string) (count : Z) (elapsed : Q)
    : list string :=
  let parts :=
    (output_part v stdout ++ error_part error ++ saved_part saved
       ++ time_part usr count elapsed)%list in
  match parts with
  | [] => [no_output]
  | _ => parts
  end.

Definition emit (emitter : bool) (description : string) (done : bool) : list effect :=
  if emitter then [Status description done] else [].

Definition get_count (T : Tools) (uid : string) : Z :=
  default 0%Z (_exec_counts T !! uid).

Definition done_label (error : option string) (elapsed : Q) : string :=
  if has_error error then "Error" else "Done (" ++ fmt_3f elapsed ++ "s)".

Definition execute_code (T : Tools) (code save_vars : string)
    (usr : option user) (emitter : bool) : reply :=
  let uid := _uid usr in
  let '(T1, state) := _user_state T uid in
  let ev := emit emitter "Validating..." false in
  let issues := _validate (valves T1) code in
  match issues with
  | _ :: _ =>
      {| text := Some ("**Sandbox violation:**" ++ PyStr.nl
                         ++ PyStr.join PyStr.nl (map (fun i => "- " ++ i) issues));
         store := T1;
         effects := (ev ++ emit emitter "Blocked" true)%list |}
  | [] =>
      let ev := (ev ++ emit emitter "Running..." false)%list in
      let ns := _build_namespace (valves T1) state in
      let ev := (ev ++ [RunSnippet code ns])%list in
      let obs := worker code ns (max_execution_time (valves T1)) in
      if escapes (obs_outcome obs) then
        (* the exception propagates: nothing below the [try] is run *)
        {| text := None; store := T1; effects := ev |}
      else
      let error := error_of (valves T1) (obs_outcome obs) in
      let elapsed := obs_elapsed obs in
      let stdout := obs_stdout obs in
      let '(state', saved) := persist (obs_ns obs) state save_vars in
      let count := (get_count T1 uid + 1)%Z in
      let T2 := {| valves := valves T1;
                   _state := <[uid := state']> (_state T1);
                   _exec_counts := <[uid := count]> (_exec_counts T1) |} in
      let parts := build_parts (valves T1) usr stdout error saved count elapsed in
      {| text := Some (PyStr.join (PyStr.nl ++ PyStr.nl) parts);
         store := T2;
         effects := (ev ++ emit emitter (done_label error elapsed) true)%list |}
  end.

(** *** [view_state] *)

Definition preview (v : value) : string :=
  let p := repr v in
  if (PyStr.len p >? 60)%Z then PyStr.slice_to p 57 ++ "..." else p.

Definition state_row (kv : string * value) : string :=
  "| `" ++ fst kv ++ "` | `" ++ type_name (snd kv) ++ "` | "
    ++ PyStr.fmt_thousands (getsizeof (snd kv)) ++ "B | `" ++ preview (snd kv) ++ "` |".

Definition view_state (T : Tools) (usr : option user) (emitter : bool) : reply :=
  let uid := _uid usr in
  let '(T1, state) := _user_state T uid in
  let count := get_count T1 uid in
  match state with
  | [] =>
      {| text := Some ("No saved variables yet. (" ++ pretty count
                         ++ " total executions)");
         store := T1;
         effects := emit emitter "Empty" true |}
  | _ =>
      let n := pretty (Z.of_nat (length state)) in
      let title :=
        "**Persistent State** — " ++ n ++ " variable(s), " ++ pretty count
          ++ " execution(s)" ++ PyStr.nl in
      let lines :=
        title :: "| Variable | Type | Size | Preview |"
              :: "|----------|------|------|---------|"
              :: map state_row state in
      {| text := Some (PyStr.join PyStr.nl lines);
         store := T1;
         effects := emit emitter (n ++ " vars") true |}
  end.

(** *** [clear_state] *)

Definition clear_state (T : Tools) (usr : option user) (emitter : bool) : reply :=
  let uid := _uid usr in
  let n := Z.of_nat (length (default [] (_state T !! uid))) in
  {| text := Some ("Cleared " ++ pretty n
                     ++ " variable(s) and reset execution counter.");
     store := {| valves := valves T;
                 _state := <[uid := []]> (_state T);
                 _exec_counts := <[uid := 0%Z]> (_exec_counts T) |};
     effects := emit emitter "Cleared" true |}.

End Interpreter.

(** ** Standalone helpers injected into the execution namespace *)

Section Stats.

(** Python's floats, and [a / b] on two integers with [b] not zero: the
    float nearest to the quotient, or [None] when the call raises
    [OverflowError] because the quotient is beyond the range of floats.
    Both belong to the Python runtime. *)
Variable float : Type.
Variable truediv : Z -> Z -> option float.

(** Numbers returned by [_quick_stats] on a list of integers. *)
Inductive number :=
| Int (z : Z)
| Float (x : float).

(** [sum(s)] *)
Definition sum (s : list Z) : Z := fold_left Z.add s 0%Z.

(** [sorted(numbers)] *)
Definition sorted (numbers : list Z) : list Z := merge_sort Z.le numbers.

(** [s[i]] for an index in range. *)
Definition at_index (s : list Z) (i : nat) : Z := nth i s 0%Z.

(** The ["median"] entry; [None] when the division raises. *)
Definition median (s : list Z) : option number :=
  let n := length s in
  if (n mod 2 =? 0)%nat
  then Float <$> truediv (at_index s (n / 2 - 1) + at_index s (n / 2)) 2
  else Some (Int (at_index s (n / 2))).

(** [_quick_stats] on a list of integers; [None] when a division raises
    while the dictionary is being built. *)
Definition _quick_stats (numbers : list Z) : option (pydict number) :=
  match numbers with
  | [] => Some []
  | _ :: _ =>
      let s := sorted numbers in
      let n := length s in
      mean ← truediv (sum s) (Z.of_nat n);
      med ← median s;
      Some [("count", Int (Z.of_nat n));
            ("sum", Int (sum s));
            ("mean", Float mean);
            ("min", Int (at_index s 0));
            ("max", Int (at_index s (n - 1)));
            ("median", med)]
  end.

End Stats.

Arguments Int {float} z.
Arguments Float {float} x.
Arguments median {float} truediv s.
Arguments _quick_stats {float} truediv numbers.

(** The sum of a list, independently of [sum]. *)
Definition total (l : list Z) : Z := foldr Z.add 0%Z l.

Section Table.
Context {V : Type}.
Variable str : V -> string.           (* [str(v)] *)

(** [str(row.get(h, ""))] *)
Definition cell (row : pydict V) (h : string) : string :=
  match PyDict.get h row with
  | Some v => str v
  | None => ""
  end.

(** [max(len(str(h)), *(len(str(row.get(h, ""))) for row in data))];
    the keys are strings, so [str(h)] is [h]. *)
Definition width (data : list (pydict V)) (h : string) : nat :=
  Nat.max (String.length h)
          (max_list (map (fun row => String.length (cell row h)) data)).

(** ["| " + " | ".join(cells) + " |"] *)
Definition table_line (cells : list string) : string :=
  "| " ++ PyStr.join " | " cells ++ " |".

Definition header_cells (headers : list string) (widths : list nat) : list string :=
  map (fun hw => PyStr.ljust (fst hw) (snd hw)) (zip headers widths).

Definition rule_cells (widths : list nat) : list string :=
  map (fun w => PyStr.repeat "-"%char w) widths.

Definition row_cells (headers : list string) (widths : list nat)
    (row : pydict V) : list string :=
  map (fun hw => PyStr.ljust (cell row (fst hw)) (snd hw)) (zip headers widths).

Definition table_headers (data : list (pydict V)) : list string :=
  match data with
  | [] => []
  | first :: _ => PyDict.keys first
  end.

Definition table_widths (data : list (pydict V)) : list nat :=
  map (width data) (table_headers data).

(** The cells of every line below the title, line by line. *)
Definition table_cells (data : list (pydict V)) : list (list string) :=
  let headers := table_headers data in
  let widths := table_widths data in
  header_cells headers widths :: rule_cells widths
    :: map (row_cells headers widths) data.

Definition title_lines (title : string) : list string :=
  if PyStr.truthy title then ["**" ++ title ++ "**" ++ PyStr.nl] else [].

(** Returns the value of the call and the text it printed. *)
Definition _as_table (data : list (pydict V)) (title : string) : string * string :=
  match data with
  | [] => ("(empty)", "")
  | _ :: _ =>
      let lines := (title_lines title ++ map table_line (table_cells data))%list in
      let result := PyStr.join PyStr.nl lines in
      (result, result ++ PyStr.nl)
  end.

End Table.

(** The number of lines of a text. *)
Definition line_count (s : string) : nat :=
  length (PyStr.split (ascii_of_nat 10) s).


(** ** Reading the store *)

(** The caller's persistent namespace, empty if the caller is unseen. *)
Definition stored (T : Tools) (uid : string) : pydict value :=
  default [] (_state T !! uid).

(** A name is kept by the loop when it is listed, bound in the namespace
    the loop reads, and does not start with an underscore. *)
Definition kept (ns : pydict value) (names : list string) (name : string) : Prop :=
  name ∈ names /\ is_Some (PyDict.get name ns) /\ PyStr.startswith name "_" = false.

Section Observed.
Variable import_ok : string -> bool.
Variable worker : string -> pydict value -> Z -> observation.

(** The namespace [execute_code] builds for a caller. *)
Definition namespace_of (T : Tools) (usr : option user) : pydict value :=
  _build_namespace import_ok (valves T) (stored T (_uid usr)).

(** What [execute_code] observes of the snippet once its wait is over. *)
Definition observed (T : Tools) (code : string) (usr : option user) : observation :=
  worker code (namespace_of T usr) (max_execution_time (valves T)).

(** The outcome of the persistence loop of [execute_code]: the caller's
    dictionary afterwards, and the names reported as saved. *)
Definition persisted (T : Tools) (code save_vars : string) (usr : option user)
    : pydict value * list string :=
  persist (obs_ns (observed T code usr)) (stored T (_uid usr)) save_vars.

End Observed.

(** ** Sessions: the tool calls of several callers, in arrival order *)

Inductive call :=
| ExecuteCode (code save_vars : string)
| ViewState
| ClearState.

Record request := {
  who : option user;
  sink : bool;           (* an [__event_emitter__] was passed *)
  what : call
}.

Section Serve.
Variable import_ok : string -> bool.
Variable worker : string -> pydict value -> Z -> observation.
Variable repr : value -> string.
Variable type_name : value -> string.
Variable getsizeof : value -> Z.
Variable fmt_3f : Q -> string.

(** One tool call, the snippet behaving as [worker] says. *)
Definition serve (T : Tools) (rq : request) : reply :=
  match what rq with
  | ExecuteCode code save_vars =>
      execute_code import_ok worker fmt_3f T code save_vars (who rq) (sink rq)
  | ViewState => view_state repr type_name getsizeof T (who rq) (sink rq)
  | ClearState => clear_state T (who rq) (sink rq)
  end.

End Serve.

(** The snippets handed to a worker, with their namespaces. *)
Fixpoint dispatched (evs : list effect) : list (string * pydict value) :=
  match evs with
  | [] => []
  | RunSnippet code ns :: rest => (code, ns) :: dispatched rest
  | Status _ _ :: rest => dispatched rest
  end.

(** The snippets caller [b] asks to execute in a session. *)
Fixpoint snippets_of (b : string) (rqs : list request) : list string :=
  match rqs with
  | [] => []
  | rq :: rest =>
      match what rq with
      | ExecuteCode code _ =>
          if decide (_uid (who rq) = b) then code :: snippets_of b rest
          else snippets_of b rest
      | _ => snippets_of b rest
      end
  end.

Section Process.

(** The state of the Python process that snippets can reach and that is
    not held per caller: [__import__] returns the one module object of
    [sys.modules] to every caller, and [__builtins__] is one object, so an
    attribute a snippet sets on them is there for every later snippet. *)
Variable world : Type.
Variable import_ok : string -> bool.
(* what a snippet is observed to do, run in a given state of the process *)
Variable worker : world -> string -> pydict value -> Z -> observation.
(* the state of the process it leaves behind *)
Variable leaves : world -> string -> pydict value -> Z -> world.
Variable repr : value -> string.
Variable type_name : value -> string.
Variable getsizeof : value -> Z.
Variable fmt_3f : Q -> string.

(** The shared state once the snippets a call dispatched have run. *)
Definition world_after (w : world) (v : Valves) (evs : list effect) : world :=
  fold_left (fun w cn => leaves w (fst cn) (snd cn) (max_execution_time v))
            (dispatched evs) w.

(** What each call comes to, call after call: the caller key, the
    returned text ([None] if the call raised) and the effects of the call,
    which are the status events sent to its sink and the snippet handed to
    a worker together with its namespace. *)
Fixpoint transcript (w : world) (T : Tools) (rqs : list request)
    : list (string * (option string * list effect)) :=
  match rqs with
  | [] => []
  | rq :: rest =>
      let r := serve import_ok (worker w) repr type_name getsizeof fmt_3f T rq in
      (_uid (who rq), (text r, effects r))
        :: transcript (world_after w (valves T) (effects r)) (store r) rest
  end.

(** The store once every request of the session has been served. *)
Fixpoint final (w : world) (T : Tools) (rqs : list request) : Tools :=
  match rqs with
  | [] => T
  | rq :: rest =>
      let r := serve import_ok (worker w) repr type_name getsizeof fmt_3f T rq in
      final (world_after w (valves T) (effects r)) (store r) rest
  end.

(** A snippet that is observed to do the same whatever the shared state. *)
Definition blind (code : string) : Prop :=
  forall w w' ns t, worker w code ns t = worker w' code ns t.

(** A snippet that raises nothing [execute_code] fails to catch. *)
Definition contained (code : string) : Prop :=
  forall w ns t, escapes (obs_outcome (worker w code ns t)) = false.

End Process.

Arguments world_after {world} leaves w v evs.
Arguments transcript {world} import_ok worker leaves repr type_name getsizeof fmt_3f w T rqs.
Arguments final {world} import_ok worker leaves repr type_name getsizeof fmt_3f w T rqs.
Arguments blind {world} worker code.
Arguments contained {world} worker code.

(** Two stores hold the same configuration and the same entries for
    caller [b]. *)
Definition agree_on (b : string) (T1 T2 : Tools) : Prop :=
  valves T1 = valves T2 /\
  _state T1 !! b = _state T2 !! b /\
  _exec_counts T1 !! b = _exec_counts T2 !! b.

(** The replies addressed to caller [b]. *)
Definition seen_by (b : string) (tr : list (string * (option string * list effect)))
    : list (string * (option string * list effect)) :=
  filter (fun e => fst e = b) tr.

(** The requests made as caller [b]. *)
Definition made_by (b : string) (rqs : list request) : list request :=
  filter (fun rq => _uid (who rq) = b) rqs.

(** ** Whole sessions and what they leave behind *)

(** A stored dictionary as [execute_code] builds it: one entry per name,
    no name with a leading underscore. *)
Definition wf_dict (st : pydict value) : Prop :=
  NoDup (PyDict.keys st) /\
  forall k, k ∈ PyDict.keys st -> PyStr.startswith k "_" = false.

Definition wf_store (T : Tools) : Prop :=
  forall u st, _state T !! u = Some st -> wf_dict st.

(** The module names of [auto_imports] that end up imported. *)
Definition loaded_names (import_ok : string -> bool) (v : Valves) : list string :=
  filter (fun m => PyStr.truthy m = true /\ import_ok m = true)
         (map PyStr.strip (PyStr.split ","%char (auto_imports v))).

(** An [execute_code] request of caller [b] that the validator lets
    through under configuration [v]. *)
Definition counted (v : Valves) (b : string) (rq : request) : bool :=
  match what rq with
  | ExecuteCode code _ =>
      bool_decide (_uid (who rq) = b) && bool_decide (_validate v code = [])
  | _ => false
  end.

(** A [clear_state] request of caller [b]. *)
Definition clears (b : string) (rq : request) : bool :=
  match what rq with
  | ClearState => bool_decide (_uid (who rq) = b)
  | _ => false
  end.

(** ** A concrete runtime, used to run the model on examples *)

Module Demo.

Definition import_ok (name : string) : bool := true.

(** A worker that knows seven snippets and treats any other as a no-op. *)
Definition worker (code : string) (ns : pydict value) (timeout : Z) : observation :=
  if decide (code = "x = 1; y = 2") then
    {| obs_outcome := Returned; obs_stdout := "";
       obs_ns := PyDict.set "y" (VInt 2) (PyDict.set "x" (VInt 1) ns);
       obs_elapsed := 0 |}
  else if decide (code = "x = 1
while True: pass") then
    {| obs_outcome := TimedOut; obs_stdout := "";
       obs_ns := PyDict.set "x" (VInt 1) ns;
       obs_elapsed := inject_Z timeout |}
  else if decide (code = "print('hi')") then
    {| obs_outcome := Returned; obs_stdout := "hi" ++ PyStr.nl;
       obs_ns := ns; obs_elapsed := 0 |}
  else if decide (code = "print('a' * 150)") then
    {| obs_outcome := Returned; obs_stdout := PyStr.repeat "a"%char 150 ++ PyStr.nl;
       obs_ns := ns; obs_elapsed := 0 |}
  else if decide (code = "1/0") then
    {| obs_outcome := Raised "ZeroDivisionError: division by zero";
       obs_stdout := ""; obs_ns := ns; obs_elapsed := 0 |}
  else if decide (code = "raise SystemExit(3)") then
    {| obs_outcome := Escaped "SystemExit";
       obs_stdout := ""; obs_ns := ns; obs_elapsed := 0 |}
  else
    {| obs_outcome := Returned; obs_stdout := ""; obs_ns := ns; obs_elapsed := 0 |}.

Definition repr (v : value) : string :=
  match v with
  | VInt z => pretty z
  | VStr s => "'" ++ s ++ "'"
  | VBuiltins => "<module 'builtins' (built-in)>"
  | VModule name => "<module '" ++ name ++ "'>"
  | VHelper QuickStats => "<function _quick_stats>"
  | VHelper AsTable => "<function _as_table>"
  | VObject _ => "<object>"
  end.

Definition type_name (v : value) : string :=
  match v with
  | VInt _ => "int"
  | VStr _ => "str"
  | VBuiltins | VModule _ => "module"
  | VHelper _ => "function"
  | VObject _ => "object"
  end.

Definition getsizeof (v : value) : Z := 28.

Definition fmt_3f (q : Q) : string :=
  pretty (Qnum q / Z.pos (Qden q))%Z ++ ".000".

Definition execute_code := execute_code import_ok worker fmt_3f.
Definition view_state := view_state repr type_name getsizeof.

(** A store whose output cap is the smallest the configuration allows. *)
Definition short_output : Tools :=
  {| valves := {| max_execution_time := 30;
                  max_output_length := 100;
                  sandbox_mode := true;
                  auto_imports := auto_imports default_valves;
                  blocked_patterns := blocked_patterns default_valves |};
     _state := ∅;
     _exec_counts := ∅ |}.

Definition serve := serve import_ok worker repr type_name getsizeof fmt_3f.

(** The part of the process state the demo snippets reach: the attribute
    [secret] of the module [math], if it has been set. *)
Definition world : Type := option Z.

(** Two more snippets, which write and read that attribute. *)
Definition process_worker (w : world) (code : string) (ns : pydict value)
    (timeout : Z) : observation :=
  if decide (code = "print(getattr(math, 'secret', None))") then
    {| obs_outcome := Returned;
       obs_stdout := match w with Some z => pretty z | None => "None" end ++ PyStr.nl;
       obs_ns := ns; obs_elapsed := 0 |}
  else worker code ns timeout.

Definition leaves (w : world) (code : string) (ns : pydict value) (timeout : Z)
    : world :=
  if decide (code = "math.secret = 42") then Some 42%Z else w.

Definition transcript :=
  transcript import_ok process_worker leaves repr type_name getsizeof fmt_3f.
Definition final :=
  final import_ok process_worker leaves repr type_name getsizeof fmt_3f.

Definition alice : option user := Some {| id := "alice"; uvalves := None |}.
Definition bob : option user := Some {| id := "bob"; uvalves := None |}.
Definition quiet : option user :=
  Some {| id := "quiet"; uvalves := Some (UserValves false) |}.

End Demo.

(** * Properties *)

(** ** Strings *)

#[local] Arguments String.append !_ _ / : simpl nomatch.

Lemma append_nil_r (s : string) : s ++ "" = s.
Proof. induction s as [|c s IH]; simpl; [reflexivity | now rewrite IH]. Qed.

Lemma append_assoc (a b c : string) : (a ++ b) ++ c = a ++ b ++ c.
Proof. induction a as [|x a IH]; simpl; [reflexivity | now rewrite IH]. Qed.

Lemma length_append (a b : string) :
  String.length (a ++ b) = (String.length a + String.length b)%nat.
Proof. induction a as [|x a IH]; simpl; [reflexivity | now rewrite IH]. Qed.

Lemma prefix_spec (p s : string) :
  String.prefix p s = true <-> exists rest, s = p ++ rest.
Proof.
  revert s. induction p as [|c p IH]; intros s.
  - split; [intros _; exists s; reflexivity | intros _; now destruct s].
  - destruct s as [|d s]; simpl.
    + split; [discriminate | intros [rest H]; discriminate].
    + destruct (ascii_dec c d) as [->|Hne].
      * rewrite IH. split; intros [rest H]; exists rest; congruence.
      * split; [discriminate | intros [rest H]; congruence].
Qed.

(** [p in s] holds exactly when [s] reads [before ++ p ++ after]. *)
Lemma contains_spec (p s : string) :
  PyStr.contains p s = true <-> exists before after, s = before ++ p ++ after.
Proof.
  induction s as [|c s IH]; cbn [PyStr.contains].
  - rewrite orb_false_r, prefix_spec. split.
    + intros [rest H]. exists "", rest. exact H.
    + intros [before [after H]]. destruct before; [eauto | discriminate].
  - rewrite orb_true_iff, prefix_spec, IH. split.
    + intros [[rest H] | [before [after H]]].
      * exists "", rest. exact H.
      * exists (String c before), after. simpl. now rewrite H.
    + intros [before [after H]]. destruct before as [|d before]; simpl in H.
      * left. eauto.
      * right. exists before, after. congruence.
Qed.

Lemma join_cons (sep x : string) (xs : list string) :
  PyStr.join sep (x :: xs) =
  match xs with [] => x | _ => x ++ sep ++ PyStr.join sep xs end.
Proof. destruct xs; reflexivity. Qed.

(** Every part of a join occurs in the joined text. *)
Lemma join_contains (sep x : string) (xs : list string) :
  x ∈ xs -> exists before after, PyStr.join sep xs = before ++ x ++ after.
Proof.
  induction xs as [|y ys IH]; intros Hin.
  - inversion Hin.
  - rewrite join_cons. apply elem_of_cons in Hin as [-> | Hin].
    + destruct ys.
      * exists "", "". simpl. now rewrite append_nil_r.
      * exists "", (sep ++ PyStr.join sep (s :: ys)). reflexivity.
    + destruct ys as [|z zs]; [inversion Hin |].
      destruct (IH Hin) as [before [after H]].
      exists (y ++ sep ++ before), after.
      rewrite H, !append_assoc. reflexivity.
Qed.

Lemma join_within (sep x : string) (xs : list string) :
  x ∈ xs -> exists before after, Some (PyStr.join sep xs) = Some (before ++ x ++ after).
Proof.
  intros Hin. destruct (join_contains sep x xs Hin) as [before [after H]].
  exists before, after. now rewrite H.
Qed.

Lemma take_spec (n : nat) (s : string) :
  exists dropped, s = PyStr.take n s ++ dropped /\
    String.length (PyStr.take n s) = Nat.min n (String.length s).
Proof.
  revert s. induction n as [|n IH]; intros s.
  - exists s. now destruct s.
  - destruct s as [|c s]; simpl.
    + exists "". split; reflexivity.
    + destruct (IH s) as [d [H1 H2]]. exists d. split; [congruence | now rewrite H2].
Qed.

Lemma take_all (n : nat) (s : string) :
  (String.length s <= n)%nat -> PyStr.take n s = s.
Proof.
  revert s. induction n as [|n IH]; intros [|c s] H; simpl in *;
    try reflexivity; [lia | rewrite IH; [reflexivity | lia]].
Qed.

Lemma length_repeat (c : ascii) (n : nat) : String.length (PyStr.repeat c n) = n.
Proof. induction n as [|n IH]; simpl; [reflexivity | now rewrite IH]. Qed.

Lemma length_ljust (s : string) (w : nat) :
  (String.length s <= w)%nat -> String.length (PyStr.ljust s w) = w.
Proof. intros H. unfold PyStr.ljust. rewrite length_append, length_repeat. lia. Qed.

(** ** Dictionaries *)

Section DictFacts.
Context {V : Type}.
Implicit Types (d : pydict V) (k : string) (v : V).

Lemma get_set_eq k v d : PyDict.get k (PyDict.set k v d) = Some v.
Proof.
  induction d as [|[k' v'] d IH]; simpl.
  - now rewrite decide_True.
  - destruct (decide (k' = k)) as [->|Hne]; simpl.
    + now rewrite decide_True.
    + now rewrite decide_False.
Qed.

Lemma get_set_ne k k' v d : k <> k' -> PyDict.get k' (PyDict.set k v d) = PyDict.get k' d.
Proof.
  intros Hne. induction d as [|[k0 v0] d IH]; simpl.
  - now rewrite decide_False.
  - destruct (decide (k0 = k)) as [->|Hne0]; simpl.
    + now rewrite !decide_False.
    + destruct (decide (k0 = k')); [reflexivity | exact IH].
Qed.

Lemma get_set k k' v d :
  PyDict.get k' (PyDict.set k v d) = if decide (k = k') then Some v else PyDict.get k' d.
Proof.
  destruct (decide (k = k')) as [->|Hne]; [apply get_set_eq | now apply get_set_ne].
Qed.

Lemma get_None_keys k d : PyDict.get k d = None <-> k ∉ PyDict.keys d.
Proof.
  induction d as [|[k' v'] d IH]; simpl.
  - split; [intros _; apply not_elem_of_nil | reflexivity].
  - rewrite not_elem_of_cons. destruct (decide (k' = k)) as [->|Hne].
    + split; [discriminate | intros [H _]; congruence].
    + rewrite IH. split; [intros H; split; [congruence | exact H] | intros [_ H]; exact H].
Qed.

(** [update] on a dictionary: bindings of [other] win. *)
Lemma get_update k d other :
  NoDup (PyDict.keys other) ->
  PyDict.get k (PyDict.update d other) =
  match PyDict.get k other with
  | Some v => Some v
  | None => PyDict.get k d
  end.
Proof.
  unfold PyDict.update. revert d.
  induction other as [|[k' v'] other IH]; intros d Hnd; simpl; [reflexivity |].
  apply NoDup_cons in Hnd as [Hnotin Hnd]. rewrite (IH _ Hnd).
  simpl in Hnotin. destruct (decide (k' = k)) as [->|Hne].
  - apply get_None_keys in Hnotin. rewrite Hnotin. apply get_set_eq.
  - now rewrite get_set_ne.
Qed.

Lemma keys_set_NoDup k v d : NoDup (PyDict.keys d) -> NoDup (PyDict.keys (PyDict.set k v d)).
Proof.
  induction d as [|[k' v'] d IH]; simpl; intros Hnd.
  - apply NoDup_singleton.
  - apply NoDup_cons in Hnd as [Hnotin Hnd].
    destruct (decide (k' = k)) as [->|Hne]; simpl.
    + now apply NoDup_cons.
    + apply NoDup_cons. split; [| now apply IH].
      apply get_None_keys. rewrite get_set_ne by congruence.
      now apply get_None_keys.
Qed.

End DictFacts.

(** ** The store and its helpers *)

Lemma user_state_valves T uid : valves (fst (_user_state T uid)) = valves T.
Proof. unfold _user_state. now destruct (_state T !! uid). Qed.

Lemma user_state_counts T uid :
  _exec_counts (fst (_user_state T uid)) = _exec_counts T.
Proof. unfold _user_state. now destruct (_state T !! uid). Qed.

Lemma user_state_entry T uid : snd (_user_state T uid) = stored T uid.
Proof. unfold _user_state, stored. now destruct (_state T !! uid). Qed.

Lemma user_state_lookup T uid u :
  _state (fst (_user_state T uid)) !! u =
  if decide (uid = u) then Some (stored T uid) else _state T !! u.
Proof.
  unfold _user_state, stored. destruct (_state T !! uid) eqn:E; simpl.
  - destruct (decide (uid = u)) as [<-|]; [exact E | reflexivity].
  - rewrite lookup_insert. destruct (decide (uid = u)); reflexivity.
Qed.

Lemma user_state_insert T uid (st : pydict value) :
  <[uid := st]> (_state (fst (_user_state T uid))) = <[uid := st]> (_state T).
Proof.
  unfold _user_state. destruct (_state T !! uid); simpl; [reflexivity |].
  apply insert_insert_eq.
Qed.

Lemma get_count_user_state T uid u :
  get_count (fst (_user_state T uid)) u = get_count T u.
Proof. unfold get_count. now rewrite user_state_counts. Qed.

(** ** The namespace builder *)

Section NamespaceBuilder.
Variable import_ok : string -> bool.

Lemma load_modules_NoDup names (ns : pydict value) :
  NoDup (PyDict.keys ns) -> NoDup (PyDict.keys (load_modules import_ok names ns)).
Proof.
  revert ns. induction names as [|raw names IH]; intros ns Hnd; simpl; [exact Hnd |].
  destruct (PyStr.truthy (PyStr.strip raw)); [| now apply IH].
  destruct (import_ok (PyStr.strip raw)); apply IH; [| exact Hnd].
  now apply keys_set_NoDup.
Qed.

(** C10. In every namespace produced by [_build_namespace] the names
    [quick_stats] and [as_table] are bound to the two helpers, whatever the
    caller has persisted; every other persisted variable is bound to its
    persisted value, so it shadows an auto-loaded module of the same name
    but never one of the two helpers. *)
Theorem build_namespace_helpers (v : Valves) (user_state : pydict value) :
  let ns := _build_namespace import_ok v user_state in
  PyDict.get "quick_stats" ns = Some (VHelper QuickStats) /\
  PyDict.get "as_table" ns = Some (VHelper AsTable) /\
  (forall k x,
      NoDup (PyDict.keys user_state) ->
      PyDict.get k user_state = Some x ->
      k <> "quick_stats" -> k <> "as_table" ->
      PyDict.get k ns = Some x).
Proof.
  unfold _build_namespace. cbv zeta. repeat split.
  - rewrite get_set_ne by discriminate. apply get_set_eq.
  - apply get_set_eq.
  - intros k x Hnd Hget Hq Ha.
    rewrite get_set_ne by congruence. rewrite get_set_ne by congruence.
    rewrite get_update by exact Hnd. now rewrite Hget.
Qed.

End NamespaceBuilder.

(** At a concrete store: a persisted [quick_stats] is overridden by the
    helper, a persisted [math] replaces the module. *)
Lemma build_namespace_helpers_witness :
  let user_state := [("math", VInt 3); ("quick_stats", VInt 1)] in
  let ns := _build_namespace Demo.import_ok default_valves user_state in
  PyDict.get "quick_stats" ns = Some (VHelper QuickStats) /\
  PyDict.get "as_table" ns = Some (VHelper AsTable) /\
  PyDict.get "math" ns = Some (VInt 3) /\
  PyDict.get "math" (_build_namespace Demo.import_ok default_valves [])
    = Some (VModule "math").
Proof.
  pose proof (build_namespace_helpers Demo.import_ok default_valves
                [("math", VInt 3); ("quick_stats", VInt 1)]) as H.
  cbv zeta in *. destruct H as [Hq [Ha Hk]].
  split; [exact Hq |]. split; [exact Ha |]. split.
  - apply Hk; [| reflexivity | discriminate | discriminate].
    compute_done.
  - vm_compute. reflexivity.
Defined.

(** ** [execute_code] *)

Section ExecuteCode.
Variable import_ok : string -> bool.
Variable worker : string -> pydict value -> Z -> observation.
Variable fmt_3f : Q -> string.

Local Abbreviation run := (execute_code import_ok worker fmt_3f).
Local Abbreviation obs_at := (observed import_ok worker).
Local Abbreviation kept_at := (persisted import_ok worker).

(** The three paths of [execute_code], written out. *)
Lemma execute_code_refused T code save_vars usr em i issues :
  _validate (valves T) code = i :: issues ->
  run T code save_vars usr em =
  {| text := Some ("**Sandbox violation:**" ++ PyStr.nl
                     ++ PyStr.join PyStr.nl (map (fun i => "- " ++ i) (i :: issues)));
     store := fst (_user_state T (_uid usr));
     effects := (emit em "Validating..." false ++ emit em "Blocked" true)%list |}.
Proof.
  intros Hv. unfold execute_code.
  pose proof (user_state_valves T (_uid usr)) as HT.
  destruct (_user_state T (_uid usr)) as [T1 state]. simpl in HT.
  rewrite HT, Hv. reflexivity.
Qed.

Lemma execute_code_escaped T code save_vars usr em :
  _validate (valves T) code = [] ->
  escapes (obs_outcome (obs_at T code usr)) = true ->
  run T code save_vars usr em =
  {| text := None;
     store := fst (_user_state T (_uid usr));
     effects := ((emit em "Validating..." false ++ emit em "Running..." false)
                 ++ [RunSnippet code (namespace_of import_ok T usr)]) |}.
Proof.
  intros Hv. unfold execute_code, observed, namespace_of.
  pose proof (user_state_valves T (_uid usr)) as HT.
  pose proof (user_state_entry T (_uid usr)) as HS.
  destruct (_user_state T (_uid usr)) as [T1 state]. simpl in HT, HS.
  rewrite HT, Hv, HS. intros ->. reflexivity.
Qed.

Lemma execute_code_admitted T code save_vars usr em :
  _validate (valves T) code = [] ->
  escapes (obs_outcome (obs_at T code usr)) = false ->
  let uid := _uid usr in
  let obs := obs_at T code usr in
  let error := error_of (valves T) (obs_outcome obs) in
  let count := (get_count T uid + 1)%Z in
  let p := kept_at T code save_vars usr in
  run T code save_vars usr em =
  {| text := Some (PyStr.join (PyStr.nl ++ PyStr.nl)
                     (build_parts fmt_3f (valves T) usr (obs_stdout obs) error (snd p)
                                  count (obs_elapsed obs)));
     store := {| valves := valves T;
                 _state := <[uid := fst p]> (_state T);
                 _exec_counts := <[uid := count]> (_exec_counts T) |};
     effects := ((emit em "Validating..." false ++ emit em "Running..." false)
                 ++ [RunSnippet code (namespace_of import_ok T usr)])
                 ++ emit em (done_label fmt_3f error (obs_elapsed obs)) true |}.
Proof.
  intros Hv. cbv zeta. unfold execute_code, persisted, observed, namespace_of.
  pose proof (user_state_valves T (_uid usr)) as HT.
  pose proof (user_state_entry T (_uid usr)) as HS.
  pose proof (user_state_counts T (_uid usr)) as HC.
  pose proof (fun st => user_state_insert T (_uid usr) st) as HI.
  destruct (_user_state T (_uid usr)) as [T1 state]. simpl in HT, HS, HC, HI.
  rewrite HT, Hv, HS. intros ->. unfold get_count. rewrite HC.
  destruct (persist _ _ _) as [state' saved]. simpl. rewrite HI. reflexivity.
Qed.

(** The store [execute_code] leaves: the one it found, with at most an
    empty entry made for the caller, unless the call ran to its end. *)
Lemma execute_code_store T code save_vars usr em :
  store (run T code save_vars usr em) = fst (_user_state T (_uid usr)) \/
  (_validate (valves T) code = [] /\
   escapes (obs_outcome (obs_at T code usr)) = false /\
   store (run T code save_vars usr em) =
   {| valves := valves T;
      _state := <[_uid usr := fst (kept_at T code save_vars usr)]> (_state T);
      _exec_counts := <[_uid usr := (get_count T (_uid usr) + 1)%Z]> (_exec_counts T) |}).
Proof.
  destruct (_validate (valves T) code) as [|i issues] eqn:Hv.
  - destruct (escapes (obs_outcome (obs_at T code usr))) eqn:He.
    + left. now rewrite (execute_code_escaped _ _ _ _ _ Hv He).
    + right. split; [reflexivity |]. split; [reflexivity |].
      now rewrite (execute_code_admitted _ _ _ _ _ Hv He).
  - left. now rewrite (execute_code_refused _ _ _ _ _ _ _ Hv).
Qed.

(** *** The persistence loop *)

Lemma persist_fold_get ns names st saved name :
  PyDict.get name (fst (fold_left (persist_one ns) names (st, saved))) =
  if decide (kept ns names name) then PyDict.get name ns else PyDict.get name st.
Proof.
  unfold kept. revert st saved. induction names as [|n names IH]; intros st saved.
  - cbn [fold_left fst]. case_decide as H; [| reflexivity].
    destruct H as [H _]. inversion H.
  - cbn [fold_left]. unfold persist_one at 2.
    destruct (PyDict.get n ns) as [v|] eqn:Hn.
    + destruct (PyStr.startswith n "_") eqn:Hu; cbn [negb fst snd].
      * rewrite IH. repeat case_decide; try reflexivity.
        -- exfalso. destruct H as [H1 [H2 H3]]. apply H0. now rewrite elem_of_cons; auto.
        -- exfalso. destruct H0 as [H1 [H2 H3]]. apply H. split; [| auto].
           apply elem_of_cons in H1 as [-> | H1]; [congruence | exact H1].
      * rewrite IH, get_set. repeat case_decide; subst; try reflexivity.
        -- exfalso. destruct H as [H1 [H2 H3]]. apply H0. now rewrite elem_of_cons; auto.
        -- congruence.
        -- exfalso. apply H1. rewrite elem_of_cons, Hn. eauto.
        -- exfalso. destruct H1 as [H1 [H2 H3]]. apply H. split; [| auto].
           apply elem_of_cons in H1 as [-> | H1]; [congruence | exact H1].
    + rewrite IH. repeat case_decide; try reflexivity.
      * exfalso. destruct H as [H1 [H2 H3]]. apply H0. now rewrite elem_of_cons; auto.
      * exfalso. destruct H0 as [H1 [H2 H3]]. apply H. split; [| auto].
        apply elem_of_cons in H1 as [-> | H1]; [| exact H1].
        rewrite Hn in H2. now destruct H2.
Qed.

Lemma persist_fold_saved ns names st saved name :
  name ∈ snd (fold_left (persist_one ns) names (st, saved)) <->
  name ∈ saved \/ kept ns names name.
Proof.
  unfold kept. revert st saved. induction names as [|n names IH]; intros st saved.
  - simpl. split; [auto | intros [H | [H _]]; [exact H | inversion H]].
  - cbn [fold_left]. unfold persist_one at 2.
    destruct (PyDict.get n ns) as [v|] eqn:Hn.
    + destruct (PyStr.startswith n "_") eqn:Hu; cbn [negb fst snd].
      * rewrite IH, elem_of_cons. split; [tauto |].
        intros [H | [[-> | H1] [H2 H3]]]; [tauto | congruence | tauto].
      * rewrite IH, elem_of_app, list_elem_of_singleton, elem_of_cons. split.
        -- intros [[H | ->] | [H1 [H2 H3]]]; [tauto | | tauto].
           right. rewrite Hn. eauto.
        -- tauto.
    + rewrite IH, elem_of_cons. split; [tauto |].
      intros [H | [[-> | H1] [H2 H3]]]; [tauto | | tauto].
      rewrite Hn in H2. now destruct H2.
Qed.

Lemma stored_after T uid (st : pydict value) (counts : gmap string Z) :
  stored {| valves := valves T; _state := <[uid := st]> (_state T);
            _exec_counts := counts |} uid = st.
Proof. unfold stored. simpl. now rewrite lookup_insert_eq. Qed.

(** The store after a run, name by name. *)
Lemma stored_after_run T code save_vars usr em name :
  _validate (valves T) code = [] ->
  escapes (obs_outcome (obs_at T code usr)) = false ->
  let ns := obs_ns (obs_at T code usr) in
  (name ∈ snd (kept_at T code save_vars usr) <-> kept ns (save_names save_vars) name) /\
  PyDict.get name (stored (store (run T code save_vars usr em)) (_uid usr)) =
  if decide (kept ns (save_names save_vars) name)
  then PyDict.get name ns
  else PyDict.get name (stored T (_uid usr)).
Proof.
  intros Hv He. cbv zeta. rewrite (execute_code_admitted _ _ _ _ _ Hv He). cbn [store].
  rewrite stored_after. unfold persisted, persist.
  rewrite persist_fold_saved, persist_fold_get. split; [| reflexivity].
  split; [intros [H | H]; [inversion H | exact H] | auto].
Qed.

(** C4. After a completed execution, that is one that passed validation
    and whose wait ended in a return, an exception the [try] catches or a
    timeout, a name is reported as saved exactly when it appears in the
    persistence list, is bound in the namespace after the run and does not
    begin with an underscore; such a name is stored with the value it has in
    that namespace, and every other name keeps what the caller had stored
    before (nothing, if it was not stored). *)
Theorem execute_code_persists_listed T code save_vars usr em name :
  _validate (valves T) code = [] ->
  escapes (obs_outcome (obs_at T code usr)) = false ->
  let r := run T code save_vars usr em in
  let ns := obs_ns (obs_at T code usr) in
  let wanted := kept ns (save_names save_vars) name in
  (name ∈ snd (kept_at T code save_vars usr) <-> wanted) /\
  (wanted ->
     PyDict.get name (stored (store r) (_uid usr)) = PyDict.get name ns) /\
  (~ wanted ->
     PyDict.get name (stored (store r) (_uid usr))
     = PyDict.get name (stored T (_uid usr))).
Proof.
  intros Hv He. cbv zeta.
  destruct (stored_after_run T code save_vars usr em name Hv He) as [Hsaved Hget].
  cbv zeta in Hget. split; [exact Hsaved |]. rewrite Hget. split; intros H.
  - now rewrite decide_True.
  - now rewrite decide_False.
Qed.


(** *** The validator gate *)

Lemma validate_lists v code p :
  sandbox_mode v = true ->
  p ∈ blocked_list v -> PyStr.contains p code = true ->
  ("Blocked: `" ++ p ++ "`") ∈ _validate v code.
Proof.
  intros Hs Hp Hc. unfold _validate. rewrite Hs.
  apply list_elem_of_In, (in_map (fun p => "Blocked: `" ++ p ++ "`")), list_elem_of_In.
  apply list_elem_of_filter. auto.
Qed.

Lemma emit_no_run em description done c ns :
  RunSnippet c ns ∉ emit em description done.
Proof.
  unfold emit. destruct em.
  - intros H. apply list_elem_of_singleton in H. discriminate.
  - apply not_elem_of_nil.
Qed.

(** C3. With sandbox mode on, a snippet that contains a configured
    denylist entry is never handed to a worker, the returned text carries
    one ["- Blocked: `entry`"] line for every entry the snippet contains,
    and the execution counters and stored variables are those of before. *)
Theorem execute_code_refuses_blocked T code save_vars usr em :
  sandbox_mode (valves T) = true ->
  (exists p before after,
      p ∈ blocked_list (valves T) /\ code = before ++ p ++ after) ->
  let r := run T code save_vars usr em in
  (forall c ns, RunSnippet c ns ∉ effects r) /\
  (forall p before after,
      p ∈ blocked_list (valves T) -> code = before ++ p ++ after ->
      exists head tail,
        text r = Some (head ++ ("- Blocked: `" ++ p ++ "`") ++ tail)) /\
  _exec_counts (store r) = _exec_counts T /\
  (forall u, stored (store r) u = stored T u).
Proof.
  intros Hs [p0 [b0 [a0 [Hp0 Hc0]]]]. cbv zeta.
  assert (Hin0 : ("Blocked: `" ++ p0 ++ "`") ∈ _validate (valves T) code).
  { apply validate_lists; [exact Hs | exact Hp0 |]. apply contains_spec. eauto. }
  destruct (_validate (valves T) code) as [|i issues] eqn:Hv; [inversion Hin0 |].
  rewrite (execute_code_refused _ _ _ _ _ _ _ Hv). cbn [text store effects].
  split; [| split; [| split]].
  - intros c ns H. apply elem_of_app in H as [H | H]; revert H; apply emit_no_run.
  - intros p before after Hp Hc.
    assert (Hin : ("Blocked: `" ++ p ++ "`") ∈ _validate (valves T) code).
    { apply validate_lists; [exact Hs | exact Hp |]. apply contains_spec. eauto. }
    rewrite Hv in Hin.
    apply list_elem_of_In, (in_map (fun i => "- " ++ i)), list_elem_of_In in Hin.
    destruct (join_contains PyStr.nl _ _ Hin) as [head [tail Hj]].
    exists ("**Sandbox violation:**" ++ PyStr.nl ++ head), tail.
    rewrite Hj, !append_assoc. reflexivity.
  - apply user_state_counts.
  - intros u. unfold stored. rewrite user_state_lookup.
    destruct (decide (_uid usr = u)) as [<-|]; reflexivity.
Qed.

(** *** The response *)

Lemma truthy_nonempty s : s <> "" -> PyStr.truthy s = true.
Proof. destruct s; [congruence | reflexivity]. Qed.

Lemma build_parts_nonempty v usr stdout error saved count elapsed x xs :
  (output_part v stdout ++ error_part error ++ saved_part saved
     ++ time_part fmt_3f usr count elapsed)%list = x :: xs ->
  build_parts fmt_3f v usr stdout error saved count elapsed = x :: xs.
Proof. unfold build_parts. now intros ->. Qed.

(** C2, as amended. When the wait for the worker times out, the text
    returned carries the error block ["Timed out after <bound>s"] with the
    configured bound, and the persistence loop runs as after any other
    outcome: a listed name that is bound in the namespace at that moment
    and does not begin with an underscore is stored with that value, and
    nothing else is stored. *)
Theorem execute_code_timeout T code save_vars usr em name :
  _validate (valves T) code = [] ->
  obs_outcome (obs_at T code usr) = TimedOut ->
  let r := run T code save_vars usr em in
  let ns := obs_ns (obs_at T code usr) in
  let bound := pretty (max_execution_time (valves T)) in
  (exists head tail,
      text r = Some (head ++ ("**Error:**" ++ PyStr.nl ++ "```" ++ PyStr.nl
                                ++ "Timed out after " ++ bound ++ "s"
                                ++ PyStr.nl ++ "```") ++ tail)) /\
  (kept ns (save_names save_vars) name ->
     PyDict.get name (stored (store r) (_uid usr)) = PyDict.get name ns) /\
  (~ kept ns (save_names save_vars) name ->
     PyDict.get name (stored (store r) (_uid usr))
     = PyDict.get name (stored T (_uid usr))).
Proof.
  intros Hv Ho.
  assert (He : escapes (obs_outcome (obs_at T code usr)) = false) by now rewrite Ho.
  cbv zeta. split.
  - rewrite (execute_code_admitted _ _ _ _ _ Hv He). cbn [text]. rewrite Ho.
    apply join_within. unfold build_parts.
    set (parts := (_ ++ _)%list).
    assert (Hin : ("**Error:**" ++ PyStr.nl ++ "```" ++ PyStr.nl
                     ++ "Timed out after " ++ pretty (max_execution_time (valves T))
                     ++ "s" ++ PyStr.nl ++ "```") ∈ parts).
    { unfold parts. rewrite !elem_of_app. right. left.
      unfold error_part, error_of. cbn. apply list_elem_of_singleton.
      now rewrite !append_assoc. }
    destruct parts; [inversion Hin | exact Hin].
  - destruct (stored_after_run T code save_vars usr em name Hv He) as [_ Hget].
    cbv zeta in Hget. rewrite Hget. split; intros H.
    + now rewrite decide_True.
    + now rewrite decide_False.
Qed.

(** C6, as amended. When an execution produced no output, no error and
    no saved variable, the returned text is the timing line if the caller's
    display preference shows it (the default), and the literal
    ["*Executed successfully (no output).*"] only if that preference is
    switched off. *)
Theorem execute_code_silent T code save_vars usr em :
  _validate (valves T) code = [] ->
  let obs := obs_at T code usr in
  escapes (obs_outcome obs) = false ->
  obs_stdout obs = "" ->
  has_error (error_of (valves T) (obs_outcome obs)) = false ->
  snd (kept_at T code save_vars usr) = [] ->
  text (run T code save_vars usr em) =
  Some (if show_time usr
        then "*Execution #" ++ pretty (get_count T (_uid usr) + 1)%Z ++ " — "
               ++ fmt_3f (obs_elapsed obs) ++ "s*"
        else no_output).
Proof.
  intros Hv obs He Hout Herr Hsaved.
  rewrite (execute_code_admitted _ _ _ _ _ Hv He). cbn [text]. fold obs.
  rewrite Hout, Hsaved. unfold build_parts, output_part, error_part, time_part.
  rewrite Herr. cbn [PyStr.truthy saved_part app].
  destruct (show_time usr); reflexivity.
Qed.

(** C7. Whenever an execution captured some output, the returned text
    opens with the output block; the text inside the block is the captured
    output itself when its length is within [max_output_length], and
    otherwise its first [max_output_length] characters followed by the
    trailer ["... truncated (N total chars)"], [N] being the full length.
    So the trailer is there exactly when the length exceeds the bound. *)
Theorem execute_code_output T code save_vars usr em :
  _validate (valves T) code = [] ->
  escapes (obs_outcome (obs_at T code usr)) = false ->
  Valves_valid (valves T) ->
  let stdout := obs_stdout (obs_at T code usr) in
  let bound := max_output_length (valves T) in
  stdout <> "" ->
  exists reported rest,
    text (run T code save_vars usr em) =
      Some (PyStr.join (PyStr.nl ++ PyStr.nl)
              (("**Output:**" ++ PyStr.nl ++ "```" ++ PyStr.nl ++ reported
                  ++ PyStr.nl ++ "```") :: rest)) /\
    ((PyStr.len stdout <= bound)%Z -> reported = stdout) /\
    ((bound < PyStr.len stdout)%Z ->
       exists shown dropped,
         stdout = shown ++ dropped /\ PyStr.len shown = bound /\
         reported = shown ++ PyStr.nl ++ "... truncated ("
                      ++ PyStr.fmt_thousands (PyStr.len stdout) ++ " total chars)").
Proof.
  intros Hv He [_ [Hlo _]] stdout bound Hne.
  exists (output_text (valves T) stdout). eexists.
  rewrite (execute_code_admitted _ _ _ _ _ Hv He). cbn [text]. fold stdout.
  split; [| split].
  - do 2 f_equal. apply build_parts_nonempty. unfold output_part.
    rewrite (truthy_nonempty _ Hne). reflexivity.
  - intros Hle. unfold output_text, PyStr.slice_to. fold bound.
    destruct (Z.gtb_spec (PyStr.len stdout) bound) as [Hgt | _]; [lia |].
    destruct (Z.leb_spec 0 bound) as [_ | Hneg]; [| lia].
    apply take_all. unfold PyStr.len in Hle. lia.
  - intros Hlt. unfold output_text, PyStr.slice_to. fold bound.
    destruct (Z.gtb_spec (PyStr.len stdout) bound) as [_ | Hle]; [| lia].
    destruct (Z.leb_spec 0 bound) as [_ | Hneg]; [| lia].
    destruct (take_spec (Z.to_nat bound) stdout) as [dropped [Hsplit Hlen]].
    exists (PyStr.take (Z.to_nat bound) stdout), dropped.
    split; [exact Hsplit |]. split; [| reflexivity].
    unfold PyStr.len in *. rewrite Hlen. lia.
Qed.

End ExecuteCode.

(** ** Isolation between callers *)

Section Isolation.
Variable import_ok : string -> bool.
Variable repr : value -> string.
Variable type_name : value -> string.
Variable getsizeof : value -> Z.
Variable fmt_3f : Q -> string.

(* one call, the snippet behaving as [wk] says *)
Local Abbreviation answer wk := (serve import_ok wk repr type_name getsizeof fmt_3f).

Lemma agree_on_refl b T : agree_on b T T.
Proof. repeat split. Qed.

Lemma agree_on_sym b T1 T2 : agree_on b T1 T2 -> agree_on b T2 T1.
Proof. intros [H1 [H2 H3]]. repeat split; congruence. Qed.

Lemma agree_on_trans b T1 T2 T3 :
  agree_on b T1 T2 -> agree_on b T2 T3 -> agree_on b T1 T3.
Proof. intros [H1 [H2 H3]] [H4 [H5 H6]]. repeat split; congruence. Qed.

Lemma agree_on_stored b T1 T2 : agree_on b T1 T2 -> stored T1 b = stored T2 b.
Proof. intros [_ [H _]]. unfold stored. now rewrite H. Qed.

Lemma agree_on_count b T1 T2 : agree_on b T1 T2 -> get_count T1 b = get_count T2 b.
Proof. intros [_ [_ H]]. unfold get_count. now rewrite H. Qed.

Lemma agree_on_user_state b T1 T2 :
  agree_on b T1 T2 ->
  agree_on b (fst (_user_state T1 b)) (fst (_user_state T2 b)).
Proof.
  intros H. pose proof (agree_on_stored _ _ _ H) as Hs. destruct H as [H1 [H2 H3]].
  split; [| split].
  - now rewrite !user_state_valves.
  - rewrite !user_state_lookup, !decide_True by reflexivity. now rewrite Hs.
  - now rewrite !user_state_counts.
Qed.

Lemma user_state_frame b uid T : uid <> b -> agree_on b (fst (_user_state T uid)) T.
Proof.
  intros Hne. split; [| split].
  - apply user_state_valves.
  - rewrite user_state_lookup. now rewrite decide_False.
  - now rewrite user_state_counts.
Qed.

(** [view_state] reads the store only through the caller's own entries. *)
Lemma view_state_same T T' usr em :
  agree_on (_uid usr) T T' ->
  text (view_state repr type_name getsizeof T usr em)
    = text (view_state repr type_name getsizeof T' usr em) /\
  effects (view_state repr type_name getsizeof T usr em)
    = effects (view_state repr type_name getsizeof T' usr em).
Proof.
  intros H. pose proof (agree_on_stored _ _ _ H) as Hs.
  pose proof (agree_on_count _ _ _ H) as Hc. unfold view_state.
  pose proof (user_state_entry T (_uid usr)) as HS.
  pose proof (get_count_user_state T (_uid usr) (_uid usr)) as HC.
  pose proof (user_state_entry T' (_uid usr)) as HS'.
  pose proof (get_count_user_state T' (_uid usr) (_uid usr)) as HC'.
  destruct (_user_state T (_uid usr)) as [T0 state0].
  destruct (_user_state T' (_uid usr)) as [T1 state1].
  simpl in HS, HC, HS', HC'. rewrite HC, HS, HC', HS', Hs, Hc.
  destruct (stored T' (_uid usr)); split; reflexivity.
Qed.

Lemma view_state_store T usr em :
  store (view_state repr type_name getsizeof T usr em)
    = fst (_user_state T (_uid usr)).
Proof.
  unfold view_state. destruct (_user_state T (_uid usr)) as [T1 state].
  destruct state; reflexivity.
Qed.

(** A call made as [b] gives the same reply on two stores that agree
    on [b], provided its snippet, if it has one, is observed to do the same
    on both sides; and it leaves the stores in agreement on [b]. *)
Lemma serve_same wk1 wk2 b T1 T2 rq :
  agree_on b T1 T2 -> _uid (who rq) = b ->
  (forall code save_vars,
      what rq = ExecuteCode code save_vars ->
      forall ns t, wk1 code ns t = wk2 code ns t) ->
  text (answer wk1 T1 rq) = text (answer wk2 T2 rq) /\
  effects (answer wk1 T1 rq) = effects (answer wk2 T2 rq) /\
  agree_on b (store (answer wk1 T1 rq)) (store (answer wk2 T2 rq)).
Proof.
  intros H <- Hwk. pose proof (agree_on_stored _ _ _ H) as Hs.
  pose proof (agree_on_count _ _ _ H) as Hc. pose proof H as [Hv _].
  unfold serve. destruct (what rq) as [code save_vars | |].
  - assert (Hobs : observed import_ok wk1 T1 code (who rq)
                   = observed import_ok wk2 T2 code (who rq)).
    { unfold observed, namespace_of. rewrite Hv, Hs. now apply (Hwk code save_vars). }
    assert (Hns : namespace_of import_ok T1 (who rq) = namespace_of import_ok T2 (who rq)).
    { unfold namespace_of. now rewrite Hv, Hs. }
    destruct (_validate (valves T1) code) as [|i issues] eqn:Hval.
    + pose proof Hval as Hval2. rewrite Hv in Hval2.
      destruct (escapes (obs_outcome (observed import_ok wk1 T1 code (who rq)))) eqn:He.
      * pose proof He as He2. rewrite Hobs in He2.
        rewrite (execute_code_escaped _ _ _ _ _ _ _ _ Hval He).
        rewrite (execute_code_escaped _ _ _ _ _ _ _ _ Hval2 He2).
        rewrite Hns. cbn [store text effects].
        split; [reflexivity | split; [reflexivity |]].
        apply agree_on_user_state; exact H.
      * pose proof He as He2. rewrite Hobs in He2.
        rewrite (execute_code_admitted _ _ _ _ _ _ _ _ Hval He).
        rewrite (execute_code_admitted _ _ _ _ _ _ _ _ Hval2 He2).
        unfold persisted. rewrite Hobs, Hns, Hv, Hs, Hc. unfold agree_on.
        cbn [store text effects _state _exec_counts valves].
        repeat split; rewrite ?lookup_insert_eq; reflexivity.
    + pose proof Hval as Hval2. rewrite Hv in Hval2.
      rewrite (execute_code_refused _ _ _ _ _ _ _ _ _ _ Hval).
      rewrite (execute_code_refused _ _ _ _ _ _ _ _ _ _ Hval2).
      cbn. repeat split. all: apply agree_on_user_state; exact H.
  - destruct (view_state_same T1 T2 (who rq) (sink rq) H) as [Ht He].
    rewrite !view_state_store. split; [exact Ht | split; [exact He |]].
    apply agree_on_user_state; exact H.
  - unfold clear_state, agree_on. destruct H as [H1 [H2 H3]].
    cbn [store text effects _state _exec_counts valves].
    rewrite H1, H2. repeat split; rewrite ?lookup_insert_eq; reflexivity.
Qed.

(** A call made as another caller leaves the entries of [b] alone. *)
Lemma serve_frame wk b T rq :
  _uid (who rq) <> b -> agree_on b (store (answer wk T rq)) T.
Proof.
  intros Hne. unfold serve. destruct (what rq) as [code save_vars | |].
  - destruct (_validate (valves T) code) as [|i issues] eqn:Hval.
    + destruct (escapes (obs_outcome (observed import_ok wk T code (who rq)))) eqn:He.
      * rewrite (execute_code_escaped _ _ _ _ _ _ _ _ Hval He). cbn [store].
        now apply user_state_frame.
      * rewrite (execute_code_admitted _ _ _ _ _ _ _ _ Hval He). unfold agree_on.
        cbn [store _state _exec_counts valves].
        repeat split; rewrite ?lookup_insert_ne by exact Hne; reflexivity.
    + rewrite (execute_code_refused _ _ _ _ _ _ _ _ _ _ Hval). cbn.
      now apply user_state_frame.
  - rewrite view_state_store. now apply user_state_frame.
  - unfold clear_state, agree_on. cbn [store _state _exec_counts valves].
    repeat split; rewrite ?lookup_insert_ne by exact Hne; reflexivity.
Qed.

Lemma snippets_of_made_by b rqs : snippets_of b (made_by b rqs) = snippets_of b rqs.
Proof.
  unfold made_by. induction rqs as [|rq rqs IH]; [reflexivity |].
  destruct (decide (_uid (who rq) = b)) as [Heq | Hne].
  - rewrite filter_cons_True by exact Heq. cbn [snippets_of]. now rewrite IH.
  - rewrite filter_cons_False by exact Hne. cbn [snippets_of]. rewrite IH.
    destruct (what rq); [| reflexivity | reflexivity].
    now rewrite decide_False.
Qed.

Lemma snippets_of_head b rq rqs code save_vars :
  _uid (who rq) = b -> what rq = ExecuteCode code save_vars ->
  code ∈ snippets_of b (rq :: rqs).
Proof.
  intros Heq Hw. cbn [snippets_of]. rewrite Hw, decide_True by exact Heq.
  apply elem_of_cons. auto.
Qed.

Lemma snippets_of_tail b rq rqs code :
  code ∈ snippets_of b rqs -> code ∈ snippets_of b (rq :: rqs).
Proof.
  intros H. cbn [snippets_of]. destruct (what rq); [| exact H | exact H].
  case_decide; [apply elem_of_cons; auto | exact H].
Qed.

Section Shared.
Variable world : Type.
Variable worker : world -> string -> pydict value -> Z -> observation.
Variable leaves : world -> string -> pydict value -> Z -> world.

Local Abbreviation replies :=
  (transcript import_ok worker leaves repr type_name getsizeof fmt_3f).

(** What [b] gets back from a session is what [b] gets back from its own
    calls alone, from any state of the process, as long as none of the
    snippets [b] runs looks at that state. *)
Lemma seen_by_transcript b rqs w1 w2 T1 T2 :
  agree_on b T1 T2 ->
  (forall code, code ∈ snippets_of b rqs -> blind worker code) ->
  seen_by b (replies w1 T1 rqs) = replies w2 T2 (made_by b rqs).
Proof.
  revert w1 w2 T1 T2. induction rqs as [|rq rqs IH]; intros w1 w2 T1 T2 H Hb;
    [reflexivity |].
  unfold seen_by, made_by in *. cbn [transcript].
  destruct (decide (_uid (who rq) = b)) as [Heq | Hne].
  - rewrite filter_cons_True by exact Heq.
    rewrite (filter_cons_True _ rq) by exact Heq. cbn [transcript].
    destruct (serve_same (worker w1) (worker w2) b T1 T2 rq H Heq) as [Ht [He Ha]].
    { intros code save_vars Hw ns t.
      apply (Hb code (snippets_of_head b rq rqs code save_vars Heq Hw)). }
    rewrite Ht, He. f_equal. apply IH; [exact Ha |].
    intros code Hc. apply Hb. now apply snippets_of_tail.
  - rewrite filter_cons_False by exact Hne.
    rewrite (filter_cons_False _ rq) by exact Hne.
    apply IH.
    + eapply agree_on_trans; [now apply serve_frame | exact H].
    + intros code Hc. apply Hb. now apply snippets_of_tail.
Qed.


End Shared.

End Isolation.

(** ** [_quick_stats] *)

Lemma sum_fold_left (s : list Z) (a : Z) : fold_left Z.add s a = (a + total s)%Z.
Proof.
  revert a. induction s as [|x s IH]; intros a; simpl; [lia |].
  rewrite IH. unfold total. simpl. lia.
Qed.

Lemma sum_total (s : list Z) : sum s = total s.
Proof. unfold sum. now rewrite sum_fold_left. Qed.

Lemma total_Permutation (l1 l2 : list Z) : l1 ≡ₚ l2 -> total l1 = total l2.
Proof.
  unfold total. induction 1; simpl; lia.
Qed.

Lemma sorted_Sorted (numbers : list Z) : Sorted Z.le (sorted numbers).
Proof. unfold sorted. apply Sorted_merge_sort. apply _. Qed.

Lemma sorted_Permutation (numbers : list Z) : sorted numbers ≡ₚ numbers.
Proof. apply merge_sort_Permutation. Qed.

(** In a sorted list, positions and values are ordered alike. *)
Lemma sorted_lookup_le (s : list Z) (i j : nat) (a b : Z) :
  Sorted Z.le s -> (i <= j)%nat -> s !! i = Some a -> s !! j = Some b -> (a <= b)%Z.
Proof.
  intros Hs. apply Sorted_StronglySorted in Hs; [| apply _].
  revert i j. induction Hs as [|x s Hs IH Hall]; intros i j Hij Hi Hj.
  - inversion Hi.
  - destruct i as [|i], j as [|j]; simpl in Hi, Hj.
    + injection Hi as <-. injection Hj as <-. lia.
    + injection Hi as <-. rewrite Forall_forall in Hall.
      apply Hall. eapply list_elem_of_lookup_2. exact Hj.
    + lia.
    + apply (IH i j); [lia | exact Hi | exact Hj].
Qed.

Lemma at_index_lookup (s : list Z) (i : nat) :
  (i < length s)%nat -> s !! i = Some (at_index s i).
Proof.
  intros H. unfold at_index. rewrite nth_lookup.
  destruct (lookup_lt_is_Some_2 s i H) as [x ->]. reflexivity.
Qed.

Lemma half_odd (k : nat) :
  ((2 * k + 1) mod 2 =? 0)%nat = false /\ ((2 * k + 1) / 2)%nat = k.
Proof.
  replace (2 * k + 1)%nat with (1 + k * 2)%nat by lia.
  rewrite Nat.Div0.mod_add, Nat.div_add by lia. split; reflexivity.
Qed.

Lemma half_even (k : nat) :
  ((2 * k) mod 2 =? 0)%nat = true /\ ((2 * k) / 2)%nat = k.
Proof.
  replace (2 * k)%nat with (0 + k * 2)%nat by lia.
  rewrite Nat.Div0.mod_add, Nat.div_add by lia. split; reflexivity.
Qed.

(** ** [_as_table] *)

Section TableFacts.
Context {V : Type}.
Variable str : V -> string.
Implicit Types (data : list (pydict V)) (row : pydict V) (h : string).

Lemma width_header data h : (String.length h <= width str data h)%nat.
Proof. unfold width. lia. Qed.

Lemma width_cell data row h :
  row ∈ data -> (String.length (cell str row h) <= width str data h)%nat.
Proof.
  intros Hin. unfold width.
  assert (String.length (cell str row h)
            ∈ map (fun row => String.length (cell str row h)) data) as Hm.
  { apply list_elem_of_In, (in_map (fun row => String.length (cell str row h))).
    now apply list_elem_of_In. }
  apply max_list_elem_of_le in Hm. lia.
Qed.

(** A width is the length of the header or of one of the cells. *)
Lemma width_attained data h :
  width str data h = String.length h \/
  exists row, row ∈ data /\ width str data h = String.length (cell str row h).
Proof.
  unfold width. set (ls := map _ data).
  destruct (Nat.max_spec (String.length h) (max_list ls)) as [[Hlt ->] | [_ ->]];
    [right | left; reflexivity].
  assert (Hne : ls <> []) by (intros E; rewrite E in Hlt; simpl in Hlt; lia).
  apply max_list_elem_of, list_elem_of_In, in_map_iff in Hne as [row [Hrow Hin]].
  exists row. split; [now apply list_elem_of_In | now rewrite Hrow].
Qed.

(** Cells padded with [ljust] to the widths of their columns have
    exactly these widths. *)
Lemma padded_lengths (f : string -> string) (w : string -> nat) headers :
  (forall h, h ∈ headers -> (String.length (f h) <= w h)%nat) ->
  map String.length
      (map (fun hw => PyStr.ljust (f (fst hw)) (snd hw)) (zip headers (map w headers)))
  = map w headers.
Proof.
  induction headers as [|h headers IH]; intros Hle; simpl; [reflexivity |].
  rewrite length_ljust by (apply Hle; apply elem_of_cons; auto).
  f_equal. apply IH. intros h' Hin. apply Hle. apply elem_of_cons. auto.
Qed.

Lemma rule_lengths (widths : list nat) :
  map String.length (rule_cells widths) = widths.
Proof.
  unfold rule_cells. induction widths as [|w widths IH]; simpl; [reflexivity |].
  now rewrite length_repeat, IH.
Qed.

Lemma table_cells_lengths data cells :
  cells ∈ table_cells str data -> map String.length cells = table_widths str data.
Proof.
  unfold table_cells, table_widths. intros Hin.
  apply elem_of_cons in Hin as [-> | Hin]; [| apply elem_of_cons in Hin as [-> | Hin]].
  - unfold header_cells. apply (padded_lengths (fun h => h)).
    intros h _. apply width_header.
  - apply rule_lengths.
  - apply list_elem_of_In, in_map_iff in Hin as [row [<- Hrow]].
    unfold row_cells. apply (padded_lengths (cell str row)).
    intros h _. apply width_cell. now apply list_elem_of_In.
Qed.

End TableFacts.

(** C9. [_as_table] returns ["(empty)"] for the empty list.  For a
    non-empty list of records and no title it returns the header line, the
    rule line and one line per record, joined by newlines; in every one of
    these lines the cell of a column is exactly as wide as the column, and
    the width of a column is the largest among the length of its header
    and the lengths of its values.  On [[{"a": 1, "b": 2}]] the result has
    three lines and both columns have width 1. *)
Theorem as_table_layout {V : Type} (str : V -> string) (data : list (pydict V)) :
  fst (_as_table str [] "") = "(empty)" /\
  (let t := fst (_as_table (pretty : Z -> string) [[("a", 1%Z); ("b", 2%Z)]] "") in
   t = "| a | b |" ++ PyStr.nl ++ "| - | - |" ++ PyStr.nl ++ "| 1 | 2 |" /\
   line_count t = 3%nat /\
   table_widths (pretty : Z -> string) [[("a", 1%Z); ("b", 2%Z)]]
     = [Nat.max (String.length "a") (String.length "1");
        Nat.max (String.length "b") (String.length "2")]) /\
  (data <> [] ->
   fst (_as_table str data "")
     = PyStr.join PyStr.nl (map table_line (table_cells str data)) /\
   length (table_cells str data) = (2 + length data)%nat /\
   (forall cells, cells ∈ table_cells str data ->
      map String.length cells = table_widths str data) /\
   (forall i h, table_headers data !! i = Some h ->
      exists w, table_widths str data !! i = Some w /\
        (String.length h <= w)%nat /\
        (forall row, row ∈ data -> (String.length (cell str row h) <= w)%nat) /\
        (w = String.length h \/
         exists row, row ∈ data /\ w = String.length (cell str row h)))).
Proof.
  split; [reflexivity |]. split.
  { cbv zeta. repeat split; vm_compute; reflexivity. }
  intros Hne. destruct data as [|first rest] eqn:Hdata; [congruence |].
  rewrite <- Hdata. split; [| split; [| split]].
  - rewrite Hdata. reflexivity.
  - unfold table_cells. simpl. now rewrite length_map.
  - apply table_cells_lengths.
  - intros i h Hh. exists (width str data h). split; [| split; [| split]].
    + change (table_widths str data) with (width str data <$> table_headers data).
      now rewrite list_lookup_fmap, Hh.
    + apply width_header.
    + intros row. apply width_cell.
    + apply width_attained.
Qed.

(** * The model at work on concrete inputs *)

Example split_fields : PyStr.split ","%char "a, b,,c" = ["a"; " b"; ""; "c"].
Proof. reflexivity. Qed.

Example strip_spaces : PyStr.strip "  import os  " = "import os".
Proof. reflexivity. Qed.

Example thousands_grouping :
  PyStr.fmt_thousands 1234567 = "1,234,567" /\ PyStr.fmt_thousands 100 = "100".
Proof. split; vm_compute; reflexivity. Qed.

Example default_denylist :
  blocked_list default_valves =
  ["import os"; "import subprocess"; "import shutil"; "import socket";
   "import http.client"; "__import__"; "importlib"; "open("; "compile("].
Proof. vm_compute. reflexivity. Qed.

(** ** The execution counter *)



(** ** Timeouts *)

(** The claim as first stated fails: [x] was bound before the snippet
    started to spin, it is named in the persistence list, and it is stored
    although the wait timed out. *)
Lemma timeout_keeps_partial_state :
  let code := "x = 1
while True: pass" in
  let r := Demo.execute_code init code "x" None false in
  obs_outcome (observed Demo.import_ok Demo.worker init code None) = TimedOut /\
  PyDict.get "x" (stored init "_anon") = None /\
  PyDict.get "x" (stored (store r) "_anon") = Some (VInt 1).
Proof. cbv zeta. repeat split; vm_compute; reflexivity. Qed.

Lemma execute_code_timeout_witness :
  let code := "x = 1
while True: pass" in
  let r := Demo.execute_code init code "x, y" None false in
  _validate (valves init) code = [] /\
  obs_outcome (observed Demo.import_ok Demo.worker init code None) = TimedOut /\
  (exists head tail,
      text r = Some (head ++ ("**Error:**" ++ PyStr.nl ++ "```" ++ PyStr.nl
                                ++ "Timed out after 30s" ++ PyStr.nl ++ "```") ++ tail)) /\
  PyDict.get "x" (stored (store r) "_anon") = Some (VInt 1) /\
  PyDict.get "y" (stored (store r) "_anon") = None.
Proof.
  cbv zeta.
  assert (Hv : _validate (valves init) "x = 1
while True: pass" = []) by (vm_compute; reflexivity).
  assert (Ho : obs_outcome (observed Demo.import_ok Demo.worker init "x = 1
while True: pass" None) = TimedOut) by (vm_compute; reflexivity).
  split; [exact Hv |]. split; [exact Ho |].
  destruct (execute_code_timeout Demo.import_ok Demo.worker Demo.fmt_3f init _
              "x, y" None false "x" Hv Ho) as [Htext [Hx _]].
  destruct (execute_code_timeout Demo.import_ok Demo.worker Demo.fmt_3f init _
              "x, y" None false "y" Hv Ho) as [_ [_ Hy]].
  split; [exact Htext |]. split.
  - unfold Demo.execute_code. change "_anon" with (_uid None). rewrite Hx.
    + vm_compute. reflexivity.
    + split; [compute_done |]. split; [| reflexivity]. vm_compute. eauto.
  - unfold Demo.execute_code. change "_anon" with (_uid None). rewrite Hy.
    + vm_compute. reflexivity.
    + intros [_ [[v Hsome] _]]. vm_compute in Hsome. discriminate.
Defined.

(** ** The validator gate *)

Lemma execute_code_refuses_blocked_witness :
  let code := "import os; open('x')" in
  let r := Demo.execute_code init code "" None true in
  sandbox_mode (valves init) = true /\
  "import os" ∈ blocked_list (valves init) /\
  "open(" ∈ blocked_list (valves init) /\
  (forall c ns, RunSnippet c ns ∉ effects r) /\
  (exists head tail, text r = Some (head ++ "- Blocked: `import os`" ++ tail)) /\
  (exists head tail, text r = Some (head ++ "- Blocked: `open(`" ++ tail)) /\
  _exec_counts (store r) = _exec_counts init.
Proof.
  cbv zeta.
  assert (H1 : "import os" ∈ blocked_list (valves init)) by compute_done.
  assert (H2 : "open(" ∈ blocked_list (valves init)) by compute_done.
  split; [reflexivity |]. split; [exact H1 |]. split; [exact H2 |].
  destruct (execute_code_refuses_blocked Demo.import_ok Demo.worker Demo.fmt_3f
              init "import os; open('x')" "" None true eq_refl) as [Hrun [Hall [Hc _]]].
  { exists "import os", "", "; open('x')". split; [exact H1 | reflexivity]. }
  split; [exact Hrun |]. split; [| split; [| exact Hc]].
  - apply (Hall "import os" "" "; open('x')" H1). reflexivity.
  - apply (Hall "open(" "import os; " "'x')" H2). reflexivity.
Defined.

(** ** Selective persistence *)

(** [x = 1; y = 2] with persistence list ["x"]: only [x] is stored. *)
Lemma execute_code_persists_listed_witness :
  let code := "x = 1; y = 2" in
  let r := Demo.execute_code init code "x" None false in
  _validate (valves init) code = [] /\
  escapes (obs_outcome (observed Demo.import_ok Demo.worker init code None)) = false /\
  PyDict.get "x" (stored (store r) "_anon") = Some (VInt 1) /\
  PyDict.get "y" (stored (store r) "_anon") = None.
Proof.
  cbv zeta.
  assert (Hv : _validate (valves init) "x = 1; y = 2" = []) by (vm_compute; reflexivity).
  assert (He : escapes (obs_outcome (observed Demo.import_ok Demo.worker init
                                       "x = 1; y = 2" None)) = false)
    by (vm_compute; reflexivity).
  split; [exact Hv |]. split; [exact He |].
  destruct (execute_code_persists_listed Demo.import_ok Demo.worker Demo.fmt_3f init _
              "x" None false "x" Hv He) as [_ [Hx _]].
  destruct (execute_code_persists_listed Demo.import_ok Demo.worker Demo.fmt_3f init _
              "x" None false "y" Hv He) as [_ [_ Hy]].
  unfold Demo.execute_code. change "_anon" with (_uid None). split.
  - rewrite Hx.
    + vm_compute. reflexivity.
    + split; [compute_done |]. split; [| reflexivity]. vm_compute. eauto.
  - rewrite Hy.
    + vm_compute. reflexivity.
    + intros [Hin _]. apply list_elem_of_singleton in Hin. discriminate.
Defined.

(** ** The response *)

(** The claim as first stated fails: nothing was printed, raised or
    saved, and the text returned is the timing line. *)
Lemma silent_run_shows_timing :
  let obs := observed Demo.import_ok Demo.worker init "pass" None in
  let r := Demo.execute_code init "pass" "" None false in
  obs_stdout obs = "" /\ obs_outcome obs = Returned /\
  snd (persisted Demo.import_ok Demo.worker init "pass" "" None) = [] /\
  text r = Some "*Execution #1 — 0.000s*" /\
  text r <> Some "*Executed successfully (no output).*".
Proof.
  cbv zeta. repeat split; try (vm_compute; reflexivity). vm_compute. discriminate.
Qed.

Lemma execute_code_silent_witness :
  let obs := observed Demo.import_ok Demo.worker init "pass" Demo.quiet in
  _validate (valves init) "pass" = [] /\
  escapes (obs_outcome obs) = false /\
  obs_stdout obs = "" /\
  has_error (error_of (valves init) (obs_outcome obs)) = false /\
  snd (persisted Demo.import_ok Demo.worker init "pass" "" Demo.quiet) = [] /\
  text (Demo.execute_code init "pass" "" Demo.quiet false)
    = Some "*Executed successfully (no output).*".
Proof.
  cbv zeta. split; [vm_compute; reflexivity |]. split; [vm_compute; reflexivity |].
  split; [vm_compute; reflexivity |]. split; [vm_compute; reflexivity |].
  split; [vm_compute; reflexivity |].
  unfold Demo.execute_code. rewrite execute_code_silent.
  - reflexivity.
  - vm_compute. reflexivity.
  - vm_compute. reflexivity.
  - vm_compute. reflexivity.
  - vm_compute. reflexivity.
  - vm_compute. reflexivity.
Defined.

(** 151 characters of output under a cap of 100. *)
Lemma execute_code_output_witness :
  let T := Demo.short_output in
  let code := "print('a' * 150)" in
  let stdout := obs_stdout (observed Demo.import_ok Demo.worker T code None) in
  _validate (valves T) code = [] /\
  escapes (obs_outcome (observed Demo.import_ok Demo.worker T code None)) = false /\
  Valves_valid (valves T) /\
  stdout <> "" /\
  exists reported rest shown dropped,
    text (Demo.execute_code T code "" None false)
      = Some (PyStr.join (PyStr.nl ++ PyStr.nl)
                (("**Output:**" ++ PyStr.nl ++ "```" ++ PyStr.nl ++ reported
                    ++ PyStr.nl ++ "```") :: rest)) /\
    stdout = shown ++ dropped /\ PyStr.len shown = 100%Z /\
    reported = shown ++ PyStr.nl ++ "... truncated (151 total chars)".
Proof.
  cbv zeta.
  assert (Hv : _validate (valves Demo.short_output) "print('a' * 150)" = [])
    by (vm_compute; reflexivity).
  assert (Hok : Valves_valid (valves Demo.short_output)) by (unfold Valves_valid; simpl; lia).
  assert (Hne : obs_stdout (observed Demo.import_ok Demo.worker Demo.short_output
                              "print('a' * 150)" None) <> "")
    by (vm_compute; discriminate).
  assert (He : escapes (obs_outcome (observed Demo.import_ok Demo.worker Demo.short_output
                                       "print('a' * 150)" None)) = false)
    by (vm_compute; reflexivity).
  split; [exact Hv |]. split; [exact He |]. split; [exact Hok |]. split; [exact Hne |].
  destruct (execute_code_output Demo.import_ok Demo.worker Demo.fmt_3f Demo.short_output
              "print('a' * 150)" "" None false Hv He Hok Hne)
    as [reported [rest [Htext [_ Hcut]]]].
  destruct Hcut as [shown [dropped [Hsplit [Hlen Hrep]]]]; [vm_compute; reflexivity |].
  exists reported, rest, shown, dropped.
  split; [exact Htext |]. split; [exact Hsplit |]. split; [exact Hlen |]. exact Hrep.
Defined.

Example truncated_output :
  text (Demo.execute_code Demo.short_output "print('a' * 150)" "" None false)
  = Some ("**Output:**" ++ PyStr.nl ++ "```" ++ PyStr.nl
            ++ PyStr.repeat "a"%char 100 ++ PyStr.nl
            ++ "... truncated (151 total chars)" ++ PyStr.nl ++ "```"
            ++ PyStr.nl ++ PyStr.nl ++ "*Execution #1 — 0.000s*").
Proof. vm_compute. reflexivity. Qed.

(** ** Isolation *)



(** The key of a call without [__user__] is ["_anon"]; a [__user__] whose
    id is that very string is the same caller. *)
Example anonymous_key :
  _uid None = "_anon" /\
  _uid (Some {| id := "_anon"; uvalves := None |}) = _uid None.
Proof. split; reflexivity. Qed.

Example bob_transcript :
  map (fun e => fst (snd e))
      (Demo.transcript None init
         [{| who := Demo.bob; sink := false; what := ViewState |};
          {| who := Demo.bob; sink := false; what := ExecuteCode "print('hi')" "" |};
          {| who := Demo.bob; sink := false; what := ExecuteCode "raise SystemExit(3)" "" |}])
  = [Some "No saved variables yet. (0 total executions)";
     Some ("**Output:**" ++ PyStr.nl ++ "```" ++ PyStr.nl ++ "hi" ++ PyStr.nl ++ PyStr.nl
             ++ "```" ++ PyStr.nl ++ PyStr.nl ++ "*Execution #1 — 0.000s*");
     None].
Proof. vm_compute. reflexivity. Qed.

Example alice_view :
  text (Demo.view_state
          (store (Demo.execute_code init "x = 1; y = 2" "x, y ,_z, q" Demo.alice false))
          Demo.alice false)
  = Some ("**Persistent State** — 2 variable(s), 1 execution(s)" ++ PyStr.nl ++ PyStr.nl
            ++ "| Variable | Type | Size | Preview |" ++ PyStr.nl
            ++ "|----------|------|------|---------|" ++ PyStr.nl
            ++ "| `x` | `int` | 28B | `1` |" ++ PyStr.nl
            ++ "| `y` | `int` | 28B | `2` |").
Proof. vm_compute. reflexivity. Qed.

(** ** The helpers *)

Lemma as_table_layout_witness :
  let data := [[("a", 1%Z); ("b", 2%Z)]] in
  data <> [] /\
  length (table_cells (pretty : Z -> string) data) = 3%nat /\
  (forall cells, cells ∈ table_cells (pretty : Z -> string) data ->
     map String.length cells = [1%nat; 1%nat]).
Proof.
  cbv zeta. split; [discriminate |].
  destruct (as_table_layout (pretty : Z -> string) [[("a", 1%Z); ("b", 2%Z)]])
    as [_ [_ H]].
  destruct (H ltac:(discriminate)) as [_ [Hlen [Hcells _]]].
  split; [exact Hlen |]. intros cells Hin. rewrite (Hcells cells Hin).
  vm_compute. reflexivity.
Defined.

Example titled_table :
  fst (_as_table (pretty : Z -> string)
         [[("a", 1%Z); ("bcd", 2%Z)]; [("bcd", 12345%Z)]] "T")
  = "**T**" ++ PyStr.nl ++ PyStr.nl
      ++ "| a | bcd   |" ++ PyStr.nl
      ++ "| - | ----- |" ++ PyStr.nl
      ++ "| 1 | 2     |" ++ PyStr.nl
      ++ "|   | 12345 |".
Proof. vm_compute. reflexivity. Qed.

(** * Further properties of the tool methods *)

(** ** [clear_state] and [view_state] *)

Section StateTools.
Variable repr : value -> string.
Variable type_name : value -> string.
Variable getsizeof : value -> Z.

Local Abbreviation view := (view_state repr type_name getsizeof).

(** X1. [clear_state] reports how many variables the caller had stored,
    leaves the caller with no stored variable and a counter of zero, and
    clearing once more reports zero variables and changes nothing. *)
Theorem clear_state_resets T usr em :
  let r := clear_state T usr em in
  text r = Some ("Cleared " ++ pretty (Z.of_nat (length (stored T (_uid usr))))
                   ++ " variable(s) and reset execution counter.") /\
  stored (store r) (_uid usr) = [] /\
  get_count (store r) (_uid usr) = 0%Z /\
  text (clear_state (store r) usr em)
    = Some "Cleared 0 variable(s) and reset execution counter." /\
  store (clear_state (store r) usr em) = store r.
Proof.
  cbv zeta. unfold clear_state, stored, get_count.
  cbn [text store _state _exec_counts valves].
  rewrite !lookup_insert_eq, !insert_insert_eq. repeat split.
Qed.

(** The text and events of [view_state] depend on the store only through
    the caller's stored variables and counter. *)
Lemma view_state_depends T T' usr em :
  stored T (_uid usr) = stored T' (_uid usr) ->
  get_count T (_uid usr) = get_count T' (_uid usr) ->
  text (view T usr em) = text (view T' usr em) /\
  effects (view T usr em) = effects (view T' usr em).
Proof.
  intros Hs Hc. unfold view_state.
  pose proof (user_state_entry T (_uid usr)) as HS.
  pose proof (get_count_user_state T (_uid usr) (_uid usr)) as HC.
  pose proof (user_state_entry T' (_uid usr)) as HS'.
  pose proof (get_count_user_state T' (_uid usr) (_uid usr)) as HC'.
  destruct (_user_state T (_uid usr)) as [T0 state0].
  destruct (_user_state T' (_uid usr)) as [T1 state1].
  simpl in HS, HC, HS', HC'. rewrite HC, HS, HC', HS', Hs, Hc.
  destruct (stored T' (_uid usr)); split; reflexivity.
Qed.

Lemma stored_user_state T uid u : stored (fst (_user_state T uid)) u = stored T u.
Proof.
  unfold stored at 1. rewrite user_state_lookup.
  destruct (decide (uid = u)) as [<-|]; reflexivity.
Qed.


Lemma get_Some_elem {V : Type} (k : string) (v : V) (d : pydict V) :
  PyDict.get k d = Some v -> (k, v) ∈ d.
Proof.
  induction d as [|[k' v'] d IH]; simpl; [discriminate |].
  destruct (decide (k' = k)) as [->|Hne]; intros H.
  - injection H as ->. apply elem_of_cons. auto.
  - apply elem_of_cons. right. auto.
Qed.

(** X3. Every variable the caller has stored has its row in the text of
    [view_state]: name, type name, size and preview. *)
Theorem view_state_lists_variable T usr em name v :
  PyDict.get name (stored T (_uid usr)) = Some v ->
  exists head tail,
    text (view T usr em)
    = Some (head ++ ("| `" ++ name ++ "` | `" ++ type_name v ++ "` | "
                       ++ PyStr.fmt_thousands (getsizeof v) ++ "B | `"
                       ++ preview repr v ++ "` |") ++ tail).
Proof.
  intros Hget. apply get_Some_elem in Hget.
  unfold view_state. pose proof (user_state_entry T (_uid usr)) as HS.
  destruct (_user_state T (_uid usr)) as [T1 state]. simpl in HS. rewrite HS.
  destruct (stored T (_uid usr)) as [|kv rest] eqn:Hst; [inversion Hget |].
  cbn [text]. apply join_within.
  do 3 (apply elem_of_cons; right).
  apply list_elem_of_In.
  apply (in_map (state_row repr type_name getsizeof) _ (name, v)).
  now apply list_elem_of_In.
Qed.

(** X4. The preview of a value never exceeds 60 characters: a [repr] of at
    most 60 characters is shown whole, a longer one is cut to its first 57
    characters followed by three dots. *)
Theorem preview_bounded (v : value) :
  (String.length (preview repr v) <= 60)%nat /\
  ((String.length (repr v) <= 60)%nat -> preview repr v = repr v) /\
  ((60 < String.length (repr v))%nat ->
     exists shown dropped,
       repr v = shown ++ dropped /\ String.length shown = 57%nat /\
       preview repr v = shown ++ "...").
Proof.
  unfold preview, PyStr.len.
  change (PyStr.slice_to (repr v) 57) with (PyStr.take 57 (repr v)).
  destruct (Z.gtb_spec (Z.of_nat (String.length (repr v))) 60) as [Hgt | Hle].
  - destruct (take_spec 57 (repr v)) as [dropped [Hsplit Hlen]].
    split; [| split].
    + rewrite length_append, Hlen. change (String.length "...") with 3%nat. lia.
    + intros H. lia.
    + intros _. exists (PyStr.take 57 (repr v)), dropped.
      split; [exact Hsplit |]. split; [rewrite Hlen; lia | reflexivity].
  - split; [lia |]. split; [reflexivity | intros H; lia].
Qed.

End StateTools.

(** ** The validator, seen from the snippet *)

(** An issue of [_validate], traced back to the denylist. *)
Lemma validate_issue (v : Valves) (code i : string) :
  i ∈ _validate v code ->
  sandbox_mode v = true /\
  exists p before after,
    p ∈ blocked_list v /\ p <> "" /\
    i = "Blocked: `" ++ p ++ "`" /\ code = before ++ p ++ after.
Proof.
  unfold _validate. destruct (sandbox_mode v); [| intros H; inversion H].
  intros Hin. split; [reflexivity |].
  apply list_elem_of_In, in_map_iff in Hin as [p [<- Hp]].
  apply list_elem_of_In, list_elem_of_filter in Hp as [Hc Hp].
  apply contains_spec in Hc as [before [after Hc]].
  exists p, before, after. split; [exact Hp |]. split; [| auto].
  unfold blocked_list in Hp. apply list_elem_of_filter in Hp as [Ht _].
  intros ->. discriminate.
Qed.

(** X5. Every issue [_validate] reports names a non-empty denylist entry that
    really occurs in the snippet, and nothing is reported unless sandbox
    mode is on. *)
Theorem validate_sound (v : Valves) (code i : string) :
  i ∈ _validate v code ->
  sandbox_mode v = true /\
  exists p before after,
    p ∈ blocked_list v /\ p <> "" /\
    i = "Blocked: `" ++ p ++ "`" /\ code = before ++ p ++ after.
Proof. apply validate_issue. Qed.

Lemma validate_sound_witness :
  let i := "Blocked: `open(`" in
  let code := "f = open('notes.txt')" in
  i ∈ _validate default_valves code /\
  exists p before after,
    p ∈ blocked_list default_valves /\ p <> "" /\
    i = "Blocked: `" ++ p ++ "`" /\ code = before ++ p ++ after.
Proof.
  cbv zeta.
  assert (H : "Blocked: `open(`" ∈ _validate default_valves "f = open('notes.txt')")
    by compute_done.
  split; [exact H |]. exact (proj2 (validate_sound _ _ _ H)).
Defined.

Lemma dispatched_app (xs ys : list effect) :
  dispatched (xs ++ ys)%list = (dispatched xs ++ dispatched ys)%list.
Proof.
  induction xs as [|[d b | c ns] xs IH]; simpl; [reflexivity | exact IH |].
  now rewrite IH.
Qed.

Lemma dispatched_emit em description done : dispatched (emit em description done) = [].
Proof. unfold emit. now destruct em. Qed.

Section Dispatch.
Variable import_ok : string -> bool.
Variable worker : string -> pydict value -> Z -> observation.
Variable fmt_3f : Q -> string.

Local Abbreviation run := (execute_code import_ok worker fmt_3f).


End Dispatch.


(** ** What a store holds *)

Lemma wf_dict_nil : wf_dict [].
Proof.
  split; [apply NoDup_nil_2 | intros k H; inversion H].
Qed.

Lemma keys_set {V : Type} (k k' : string) (v : V) (d : pydict V) :
  k' ∈ PyDict.keys (PyDict.set k v d) -> k' = k \/ k' ∈ PyDict.keys d.
Proof.
  induction d as [|[k0 v0] d IH]; simpl.
  - intros H. apply list_elem_of_singleton in H. auto.
  - destruct (decide (k0 = k)) as [->|Hne]; simpl; intros H.
    + right. exact H.
    + apply elem_of_cons in H as [-> | H].
      * right. apply elem_of_cons. auto.
      * destruct (IH H) as [-> | H']; [auto | right; apply elem_of_cons; auto].
Qed.

Lemma wf_dict_set k v st :
  PyStr.startswith k "_" = false -> wf_dict st -> wf_dict (PyDict.set k v st).
Proof.
  intros Hk [Hnd Hus]. split; [now apply keys_set_NoDup |].
  intros k' H. apply keys_set in H as [-> | H]; [exact Hk | now apply Hus].
Qed.

Lemma wf_dict_persist ns names st saved :
  wf_dict st -> wf_dict (fst (fold_left (persist_one ns) names (st, saved))).
Proof.
  revert st saved. induction names as [|n names IH]; intros st saved Hwf; [exact Hwf |].
  cbn [fold_left]. unfold persist_one at 2.
  destruct (PyDict.get n ns) as [v|]; [| now apply IH].
  destruct (PyStr.startswith n "_") eqn:Hu; cbn [negb fst snd]; [now apply IH |].
  apply IH. now apply wf_dict_set.
Qed.

Lemma wf_stored T uid : wf_store T -> wf_dict (stored T uid).
Proof.
  intros Hwf. unfold stored. destruct (_state T !! uid) as [st|] eqn:E; simpl.
  - exact (Hwf _ _ E).
  - apply wf_dict_nil.
Qed.

Lemma wf_store_insert T uid st counts :
  wf_store T -> wf_dict st ->
  wf_store {| valves := valves T; _state := <[uid := st]> (_state T);
              _exec_counts := counts |}.
Proof.
  intros Hwf Hst u st'. cbn [_state]. rewrite lookup_insert.
  destruct (decide (uid = u)); [intros [= <-]; exact Hst | apply Hwf].
Qed.

Lemma wf_user_state T uid : wf_store T -> wf_store (fst (_user_state T uid)).
Proof.
  intros Hwf u st. rewrite user_state_lookup.
  destruct (decide (uid = u)); [intros [= <-]; now apply wf_stored | apply Hwf].
Qed.

Section StoreInvariant.
Variable import_ok : string -> bool.
Variable worker : string -> pydict value -> Z -> observation.
Variable repr : value -> string.
Variable type_name : value -> string.
Variable getsizeof : value -> Z.
Variable fmt_3f : Q -> string.

Local Abbreviation answer := (serve import_ok worker repr type_name getsizeof fmt_3f).

Lemma serve_valves T rq : valves (store (answer T rq)) = valves T.
Proof.
  unfold serve. destruct (what rq) as [code save_vars | |].
  - destruct (execute_code_store import_ok worker fmt_3f T code save_vars (who rq) (sink rq))
      as [-> | (_ & _ & ->)]; [apply user_state_valves | reflexivity].
  - rewrite view_state_store. apply user_state_valves.
  - reflexivity.
Qed.

Lemma serve_wf T rq : wf_store T -> wf_store (store (answer T rq)).
Proof.
  intros Hwf. unfold serve. destruct (what rq) as [code save_vars | |].
  - destruct (execute_code_store import_ok worker fmt_3f T code save_vars (who rq) (sink rq))
      as [-> | (_ & _ & ->)]; [now apply wf_user_state |].
    apply wf_store_insert; [exact Hwf |].
    unfold persisted, persist. apply wf_dict_persist. now apply wf_stored.
  - rewrite view_state_store. now apply wf_user_state.
  - unfold clear_state. cbn [store]. apply wf_store_insert; [exact Hwf | apply wf_dict_nil].
Qed.

End StoreInvariant.

Section StoreInvariantSessions.
Variable world : Type.
Variable import_ok : string -> bool.
Variable worker : world -> string -> pydict value -> Z -> observation.
Variable leaves : world -> string -> pydict value -> Z -> world.
Variable repr : value -> string.
Variable type_name : value -> string.
Variable getsizeof : value -> Z.
Variable fmt_3f : Q -> string.

Local Abbreviation outcome :=
  (final import_ok worker leaves repr type_name getsizeof fmt_3f).

(** X7. Whatever calls are made, in whatever order and by whomever, and
    whatever their snippets do, every caller's stored dictionary keeps one
    entry per name and never holds a name that begins with an underscore;
    the configuration stays as it was. *)
Theorem store_stays_well_formed w T rqs :
  wf_store T ->
  wf_store (outcome w T rqs) /\ valves (outcome w T rqs) = valves T.
Proof.
  revert w T. induction rqs as [|rq rqs IH]; intros w T Hwf; [auto |].
  cbn [final].
  match goal with
  | |- wf_store (final _ _ _ _ _ _ _ ?w' ?T' _) /\ _ =>
      destruct (IH w' T') as [H1 H2]
  end.
  { now apply serve_wf. }
  split; [exact H1 |]. rewrite H2. apply serve_valves.
Qed.

End StoreInvariantSessions.

Lemma wf_store_init : wf_store init.
Proof. intros u st H. unfold init in H. cbn in H. now rewrite lookup_empty in H. Qed.

Lemma store_stays_well_formed_witness :
  let rqs := [{| who := Demo.alice; sink := false;
                 what := ExecuteCode "x = 1; y = 2" "x, _y, x" |};
              {| who := Demo.bob; sink := false; what := ViewState |};
              {| who := Demo.alice; sink := false; what := ClearState |}] in
  let T := Demo.final None init rqs in
  wf_store init /\ wf_store T /\ valves T = valves init.
Proof.
  cbv zeta. split; [exact wf_store_init |].
  apply (store_stays_well_formed Demo.world Demo.import_ok Demo.process_worker Demo.leaves
           Demo.repr Demo.type_name Demo.getsizeof Demo.fmt_3f None init).
  exact wf_store_init.
Defined.

(** ** What a namespace binds *)

Section NamespaceLookup.
Variable import_ok : string -> bool.

Lemma load_modules_get names (ns : pydict value) k :
  PyDict.get k (load_modules import_ok names ns) =
  if decide (k ∈ filter (fun m => PyStr.truthy m = true /\ import_ok m = true)
                        (map PyStr.strip names))
  then Some (VModule k)
  else PyDict.get k ns.
Proof.
  revert ns. induction names as [|raw names IH]; intros ns.
  - cbn [load_modules map]. rewrite decide_False; [reflexivity |].
    intros H. rewrite filter_nil in H. inversion H.
  - cbn [load_modules map].
    destruct (PyStr.truthy (PyStr.strip raw)) eqn:Ht;
      [destruct (import_ok (PyStr.strip raw)) eqn:Hi |].
    + rewrite filter_cons_True by auto. rewrite IH, get_set.
      set (F := filter _ (map PyStr.strip names)).
      destruct (decide (PyStr.strip raw = k)) as [<-|Hne].
      * rewrite (decide_True (P := PyStr.strip raw ∈ PyStr.strip raw :: F))
          by (apply elem_of_cons; auto).
        now destruct (decide (PyStr.strip raw ∈ F)).
      * destruct (decide (k ∈ F)) as [Hin | Hout].
        -- now rewrite decide_True by (apply elem_of_cons; auto).
        -- rewrite decide_False; [reflexivity |].
           intros H. apply elem_of_cons in H as [-> | H]; [congruence | contradiction].
    + rewrite filter_cons_False by (intros [_ H]; congruence). apply IH.
    + rewrite filter_cons_False by (intros [H _]; congruence). apply IH.
Qed.

(** Looking a name up in a freshly built namespace. *)
Lemma namespace_get (v : Valves) (user_state : pydict value) (k : string) :
  NoDup (PyDict.keys user_state) ->
  PyDict.get k (_build_namespace import_ok v user_state) =
  if decide (k = "as_table") then Some (VHelper AsTable)
  else if decide (k = "quick_stats") then Some (VHelper QuickStats)
  else match PyDict.get k user_state with
       | Some x => Some x
       | None =>
           if decide (k ∈ loaded_names import_ok v) then Some (VModule k)
           else if decide (k = "__builtins__") then Some VBuiltins
           else None
       end.
Proof.
  intros Hnd. unfold _build_namespace, loaded_names. cbv zeta.
  rewrite !get_set, get_update by exact Hnd. rewrite load_modules_get.
  destruct (decide ("as_table" = k)) as [<-|Ha].
  { now rewrite decide_True. }
  rewrite (decide_False (P := k = "as_table")) by congruence.
  destruct (decide ("quick_stats" = k)) as [<-|Hq].
  { now rewrite decide_True. }
  rewrite (decide_False (P := k = "quick_stats")) by congruence.
  destruct (PyDict.get k user_state); [reflexivity |].
  case_decide; [reflexivity |]. simpl.
  destruct (decide ("__builtins__" = k)) as [<-|Hb].
  - now rewrite decide_True.
  - rewrite decide_False by congruence. reflexivity.
Qed.

(** X8. The bindings of a namespace, in order of precedence: the two
    helpers, then the caller's stored variables, then the modules of
    [auto_imports] whose import succeeds, then [__builtins__]; no other
    name is bound.  A module whose import fails is left out. *)
Theorem build_namespace_lookup (v : Valves) (user_state : pydict value) (k : string) :
  NoDup (PyDict.keys user_state) ->
  PyDict.get k (_build_namespace import_ok v user_state) =
  if decide (k = "as_table") then Some (VHelper AsTable)
  else if decide (k = "quick_stats") then Some (VHelper QuickStats)
  else match PyDict.get k user_state with
       | Some x => Some x
       | None =>
           if decide (k ∈ loaded_names import_ok v) then Some (VModule k)
           else if decide (k = "__builtins__") then Some VBuiltins
           else None
       end.
Proof. apply namespace_get. Qed.

End NamespaceLookup.

Lemma build_namespace_lookup_witness :
  let importable m := negb (String.eqb m "json") in
  let ns := _build_namespace importable default_valves [("re", VInt 7)] in
  NoDup (PyDict.keys [("re", VInt 7)]) /\
  PyDict.get "math" ns = Some (VModule "math") /\
  PyDict.get "json" ns = None /\
  PyDict.get "re" ns = Some (VInt 7) /\
  PyDict.get "os" ns = None.
Proof.
  cbv zeta.
  assert (Hnd : NoDup (PyDict.keys [("re", VInt 7)])) by compute_done.
  split; [exact Hnd |].
  rewrite !(build_namespace_lookup _ default_valves _ _ Hnd).
  repeat split; vm_compute; reflexivity.
Defined.

(** ** From one execution to the next *)

Section NextExecution.
Variable import_ok : string -> bool.
Variable worker : string -> pydict value -> Z -> observation.
Variable fmt_3f : Q -> string.

Local Abbreviation run := (execute_code import_ok worker fmt_3f).
Local Abbreviation obs_at := (observed import_ok worker).

Lemma wf_stored_after_run T code save_vars usr em :
  wf_store T ->
  wf_dict (stored (store (run T code save_vars usr em)) (_uid usr)).
Proof.
  intros Hwf.
  destruct (execute_code_store import_ok worker fmt_3f T code save_vars usr em)
    as [-> | (_ & _ & ->)].
  - rewrite stored_user_state. now apply wf_stored.
  - rewrite stored_after. unfold persisted, persist.
    apply wf_dict_persist. now apply wf_stored.
Qed.

Lemma execute_code_valves T code save_vars usr em :
  valves (store (run T code save_vars usr em)) = valves T.
Proof.
  destruct (execute_code_store import_ok worker fmt_3f T code save_vars usr em)
    as [-> | (_ & _ & ->)]; [apply user_state_valves | reflexivity].
Qed.

(** X9. A variable saved by one execution, which has then run to its end,
    is bound to the saved value in the namespace of the caller's next
    execution.  A name that was not saved, was not stored before and is
    neither a loaded module, a helper nor [__builtins__] is unbound there,
    whatever the snippet did with it and however the call ended. *)
Theorem saved_variable_comes_back T code save_vars usr em name :
  wf_store T ->
  _validate (valves T) code = [] ->
  name <> "quick_stats" -> name <> "as_table" ->
  let ns := obs_ns (obs_at T code usr) in
  let next := namespace_of import_ok (store (run T code save_vars usr em)) usr in
  (escapes (obs_outcome (obs_at T code usr)) = false ->
   kept ns (save_names save_vars) name ->
     PyDict.get name next = PyDict.get name ns) /\
  (~ kept ns (save_names save_vars) name ->
     PyDict.get name (stored T (_uid usr)) = None ->
     name ∉ loaded_names import_ok (valves T) -> name <> "__builtins__" ->
     PyDict.get name next = None).
Proof.
  intros Hwf Hv Hq Ha. cbv zeta.
  pose proof (wf_stored_after_run T code save_vars usr em Hwf) as [Hnd _].
  unfold namespace_of. rewrite (namespace_get _ _ _ _ Hnd).
  rewrite !decide_False by congruence. rewrite execute_code_valves.
  destruct (escapes (obs_outcome (obs_at T code usr))) eqn:He.
  - split; [discriminate |]. intros _ Hold Hmod Hb.
    rewrite (execute_code_escaped _ _ _ _ _ _ _ _ Hv He). cbn [store].
    rewrite stored_user_state, Hold.
    rewrite !decide_False by congruence. reflexivity.
  - destruct (stored_after_run import_ok worker fmt_3f T code save_vars usr em name Hv He)
      as [_ Hget]. cbv zeta in Hget. rewrite Hget. split.
    + intros _ Hk. rewrite decide_True by exact Hk.
      destruct Hk as [_ [[x Hx] _]]. now rewrite Hx.
    + intros Hk Hold Hmod Hb. rewrite decide_False by exact Hk. rewrite Hold.
      rewrite !decide_False by congruence. reflexivity.
Qed.

Lemma persist_fold_order ns names st saved :
  snd (fold_left (persist_one ns) names (st, saved)) =
  (saved ++ filter (fun n => is_Some (PyDict.get n ns)
                             /\ PyStr.startswith n "_" = false) names)%list.
Proof.
  revert st saved. induction names as [|n names IH]; intros st saved.
  - simpl. now rewrite app_nil_r.
  - cbn [fold_left]. unfold persist_one at 2.
    destruct (PyDict.get n ns) as [v|] eqn:Hn.
    + destruct (PyStr.startswith n "_") eqn:Hu; cbn [negb fst snd].
      * rewrite IH, filter_cons_False; [reflexivity |]. intros [_ H]. congruence.
      * rewrite IH, filter_cons_True by (rewrite Hn; eauto).
        now rewrite <- app_assoc.
    + rewrite IH, filter_cons_False; [reflexivity |].
      intros [[x Hx] _]. congruence.
Qed.

(** X10. The names the persistence loop reports as saved are the names of
    the persistence list that are bound after the run and have no leading
    underscore, in the order of the list and once per mention; when there
    is at least one and the call returns, the text returned carries them,
    back-quoted and comma-separated, on the Saved line. *)
Theorem saved_names_in_order T code save_vars usr em :
  let saved :=
    filter (fun n => is_Some (PyDict.get n (obs_ns (obs_at T code usr)))
                     /\ PyStr.startswith n "_" = false)
           (save_names save_vars) in
  snd (persisted import_ok worker T code save_vars usr) = saved /\
  (_validate (valves T) code = [] ->
   escapes (obs_outcome (obs_at T code usr)) = false -> saved <> [] ->
   exists head tail,
     text (run T code save_vars usr em)
     = Some (head ++ ("**Saved:** "
                        ++ PyStr.join ", " (map (fun n => "`" ++ n ++ "`") saved))
                  ++ tail)).
Proof.
  cbv zeta.
  assert (Hs : snd (persisted import_ok worker T code save_vars usr) =
               filter (fun n => is_Some (PyDict.get n (obs_ns (obs_at T code usr)))
                                /\ PyStr.startswith n "_" = false)
                      (save_names save_vars)).
  { unfold persisted, persist. now rewrite persist_fold_order. }
  split; [exact Hs |]. intros Hv He Hne.
  rewrite (execute_code_admitted _ _ _ _ _ _ _ _ Hv He). cbn [text]. rewrite Hs.
  apply join_within. unfold build_parts. set (parts := (_ ++ _)%list).
  match goal with
  | |- ?line ∈ _ => assert (Hin : line ∈ parts)
  end.
  { unfold parts. rewrite !elem_of_app. right. right. left.
    unfold saved_part. destruct (filter _ _); [congruence |].
    apply list_elem_of_singleton. reflexivity. }
  destruct parts; [inversion Hin | exact Hin].
Qed.

End NextExecution.

Lemma saved_variable_comes_back_witness :
  let code := "x = 1; y = 2" in
  let r := Demo.execute_code init code "x" Demo.alice false in
  let next := namespace_of Demo.import_ok (store r) Demo.alice in
  wf_store init /\ _validate (valves init) code = [] /\
  escapes (obs_outcome (observed Demo.import_ok Demo.worker init code Demo.alice)) = false /\
  PyDict.get "x" next = Some (VInt 1) /\ PyDict.get "y" next = None.
Proof.
  cbv zeta.
  assert (Hv : _validate (valves init) "x = 1; y = 2" = []) by (vm_compute; reflexivity).
  split; [exact wf_store_init |]. split; [exact Hv |]. split; [vm_compute; reflexivity |].
  destruct (saved_variable_comes_back Demo.import_ok Demo.worker Demo.fmt_3f init _
              "x" Demo.alice false "x" wf_store_init Hv) as [Hx _];
    [discriminate | discriminate |].
  destruct (saved_variable_comes_back Demo.import_ok Demo.worker Demo.fmt_3f init _
              "x" Demo.alice false "y" wf_store_init Hv) as [_ Hy];
    [discriminate | discriminate |].
  unfold Demo.execute_code. split.
  - rewrite Hx.
    + vm_compute. reflexivity.
    + vm_compute. reflexivity.
    + split; [compute_done |]. split; [| reflexivity]. vm_compute. eauto.
  - apply Hy.
    + intros [Hin _]. apply list_elem_of_singleton in Hin. discriminate.
    + vm_compute. reflexivity.
    + compute_done.
    + discriminate.
Defined.

Lemma saved_names_in_order_witness :
  let r := Demo.execute_code init "x = 1; y = 2" "y, _z, x ,q, y" None false in
  _validate (valves init) "x = 1; y = 2" = [] /\
  escapes (obs_outcome (observed Demo.import_ok Demo.worker init "x = 1; y = 2" None))
    = false /\
  snd (persisted Demo.import_ok Demo.worker init "x = 1; y = 2" "y, _z, x ,q, y" None)
    = ["y"; "x"; "y"] /\
  exists head tail, text r = Some (head ++ "**Saved:** `y`, `x`, `y`" ++ tail).
Proof.
  cbv zeta.
  assert (Hv : _validate (valves init) "x = 1; y = 2" = []) by (vm_compute; reflexivity).
  destruct (saved_names_in_order Demo.import_ok Demo.worker Demo.fmt_3f init
              "x = 1; y = 2" "y, _z, x ,q, y" None false) as [Hs Ht].
  split; [exact Hv |]. split; [vm_compute; reflexivity |]. split.
  - rewrite Hs. vm_compute. reflexivity.
  - destruct (Ht Hv) as [head [tail H]];
      [vm_compute; reflexivity | vm_compute; discriminate |].
    exists head, tail. unfold Demo.execute_code. rewrite H. do 2 f_equal.
Defined.

(** ** Whole sessions *)

Section SessionFacts.
Variable import_ok : string -> bool.
Variable worker : string -> pydict value -> Z -> observation.
Variable repr : value -> string.
Variable type_name : value -> string.
Variable getsizeof : value -> Z.
Variable fmt_3f : Q -> string.

Local Abbreviation answer := (serve import_ok worker repr type_name getsizeof fmt_3f).

Lemma serve_stored_other T rq u :
  _uid (who rq) <> u -> stored (store (answer T rq)) u = stored T u.
Proof.
  intros Hne. apply agree_on_stored.
  now apply (serve_frame import_ok repr type_name getsizeof fmt_3f).
Qed.

Lemma serve_count_other T rq u :
  _uid (who rq) <> u -> get_count (store (answer T rq)) u = get_count T u.
Proof.
  intros Hne. apply agree_on_count.
  now apply (serve_frame import_ok repr type_name getsizeof fmt_3f).
Qed.

(** The counter of [b] after one call whose snippet, if [b] runs one,
    raises nothing that escapes. *)
Lemma serve_count T rq b :
  (forall code save_vars,
      what rq = ExecuteCode code save_vars -> _uid (who rq) = b ->
      escapes (obs_outcome (observed import_ok worker T code (who rq))) = false) ->
  get_count (store (answer T rq)) b =
  if clears b rq then 0%Z
  else if counted (valves T) b rq then (get_count T b + 1)%Z
  else get_count T b.
Proof.
  intros Hc. destruct (decide (_uid (who rq) = b)) as [Heq | Hne].
  - unfold clears, counted, serve. subst b.
    destruct (what rq) as [code save_vars | |].
    + rewrite bool_decide_eq_true_2 by reflexivity. cbn [andb].
      destruct (_validate (valves T) code) as [|i issues] eqn:Hv.
      * rewrite bool_decide_eq_true_2 by reflexivity.
        rewrite (execute_code_admitted _ _ _ _ _ _ _ _ Hv (Hc _ _ eq_refl eq_refl)).
        unfold get_count at 1.
        cbn [store _exec_counts]. now rewrite lookup_insert_eq.
      * rewrite bool_decide_eq_false_2 by discriminate.
        rewrite (execute_code_refused _ _ _ _ _ _ _ _ _ _ Hv). cbn [store].
        apply get_count_user_state.
    + rewrite view_state_store. apply get_count_user_state.
    + rewrite bool_decide_eq_true_2 by reflexivity.
      unfold clear_state, get_count. cbn [store _exec_counts].
      now rewrite lookup_insert_eq.
  - rewrite (serve_count_other _ _ _ Hne). unfold clears, counted.
    destruct (what rq); rewrite ?bool_decide_eq_false_2 by exact Hne; reflexivity.
Qed.

(** Whatever the snippet does, a call that is not a [clear_state] of [b]
    moves the counter of [b] up by one at most, and only if it is an
    [execute_code] of [b] that the validator lets through. *)
Lemma serve_count_bounds T rq b :
  clears b rq = false ->
  (get_count T b <= get_count (store (answer T rq)) b
   <= get_count T b + (if counted (valves T) b rq then 1 else 0))%Z.
Proof.
  intros Hclr. destruct (decide (_uid (who rq) = b)) as [Heq | Hne].
  - unfold clears in Hclr. unfold counted, serve. subst b.
    destruct (what rq) as [code save_vars | |].
    + rewrite bool_decide_eq_true_2 by reflexivity. cbn [andb].
      destruct (_validate (valves T) code) as [|i issues] eqn:Hv.
      * rewrite bool_decide_eq_true_2 by reflexivity.
        destruct (escapes (obs_outcome (observed import_ok worker T code (who rq)))) eqn:He.
        -- rewrite (execute_code_escaped _ _ _ _ _ _ _ _ Hv He). cbn [store].
           rewrite get_count_user_state. lia.
        -- rewrite (execute_code_admitted _ _ _ _ _ _ _ _ Hv He). cbn [store].
           unfold get_count. cbn [_exec_counts]. rewrite lookup_insert_eq. simpl. lia.
      * rewrite bool_decide_eq_false_2 by discriminate.
        rewrite (execute_code_refused _ _ _ _ _ _ _ _ _ _ Hv). cbn [store].
        rewrite get_count_user_state. lia.
    + rewrite view_state_store, get_count_user_state. lia.
    + rewrite bool_decide_eq_true_2 in Hclr by reflexivity. discriminate.
  - rewrite (serve_count_other _ _ _ Hne). destruct (counted (valves T) b rq); lia.
Qed.

(** X12. Only [clear_state] removes a stored variable: after any other call,
    by any caller and however it ends, every variable a caller had stored
    is still stored. *)
Theorem variables_survive T rq u name :
  clears u rq = false ->
  is_Some (PyDict.get name (stored T u)) ->
  is_Some (PyDict.get name (stored (store (answer T rq)) u)).
Proof.
  intros Hclr Hold. destruct (decide (_uid (who rq) = u)) as [Heq | Hne];
    [| now rewrite (serve_stored_other _ _ _ Hne)].
  subst u. unfold clears in Hclr. unfold serve.
  destruct (what rq) as [code save_vars | |].
  - destruct (_validate (valves T) code) as [|i issues] eqn:Hv.
    + destruct (escapes (obs_outcome (observed import_ok worker T code (who rq)))) eqn:He.
      * rewrite (execute_code_escaped _ _ _ _ _ _ _ _ Hv He). cbn [store].
        now rewrite stored_user_state.
      * destruct (stored_after_run import_ok worker fmt_3f T code save_vars (who rq)
                    (sink rq) name Hv He) as [_ Hget]. cbv zeta in Hget. rewrite Hget.
        case_decide as Hk; [| exact Hold]. now destruct Hk as [_ [Hb _]].
    + rewrite (execute_code_refused _ _ _ _ _ _ _ _ _ _ Hv). cbn [store].
      now rewrite stored_user_state.
  - rewrite view_state_store. now rewrite stored_user_state.
  - rewrite bool_decide_eq_true_2 in Hclr by reflexivity. discriminate.
Qed.

(** X13. Status events go to the sink only: without a sink none is
    produced.  With a sink, every call that returns a text has produced at
    least one, the last one is marked done and no earlier one is; a call
    that raises instead, because its snippet raised an exception the [try]
    does not catch, has produced the two opening events and none marked
    done. *)
Theorem status_events_close T rq :
  let r := serve import_ok worker repr type_name getsizeof fmt_3f T rq in
  (sink rq = false -> forall d b, Status d b ∉ effects r) /\
  (sink rq = true -> is_Some (text r) ->
     exists evs d,
       effects r = (evs ++ [Status d true])%list /\
       forall d' b', Status d' b' ∈ evs -> b' = false) /\
  (sink rq = true -> text r = None ->
     exists code ns,
       effects r = [Status "Validating..." false; Status "Running..." false;
                    RunSnippet code ns]).
Proof.
  cbv zeta. unfold serve. destruct (what rq) as [code save_vars | |].
  - destruct (_validate (valves T) code) as [|i issues] eqn:Hv.
    + destruct (escapes (obs_outcome (observed import_ok worker T code (who rq)))) eqn:He.
      * rewrite (execute_code_escaped _ _ _ _ _ _ _ _ Hv He). cbn [effects text].
        split; [| split].
        -- intros ->. cbn. intros d b H.
           apply list_elem_of_singleton in H. discriminate.
        -- intros _ [x Hx]. discriminate.
        -- intros -> _. cbn. eauto.
      * rewrite (execute_code_admitted _ _ _ _ _ _ _ _ Hv He). cbn [effects text].
        split; [| split].
        -- intros ->. cbn. intros d b H.
           apply list_elem_of_singleton in H. discriminate.
        -- intros -> _. cbn [emit]. eexists. eexists. split; [reflexivity |].
           intros d' b' H. cbn in H. rewrite !elem_of_cons in H.
           destruct H as [H | [H | [H | H]]];
             [congruence | congruence | discriminate | inversion H].
        -- discriminate.
    + rewrite (execute_code_refused _ _ _ _ _ _ _ _ _ _ Hv). cbn [effects text].
      split; [| split].
      * intros ->. cbn. intros d b H. inversion H.
      * intros -> _. cbn [emit]. eexists. eexists. split; [reflexivity |].
        intros d' b' H. apply list_elem_of_singleton in H. congruence.
      * discriminate.
  - unfold view_state. destruct (_user_state T (_uid (who rq))) as [T1 state].
    destruct state as [|kv state]; cbn [effects text]; (split; [| split]).
    + intros ->. cbn. intros d b H. inversion H.
    + intros -> _. exists [], "Empty". split; [reflexivity |].
      intros d' b' H. inversion H.
    + discriminate.
    + intros ->. cbn. intros d b H. inversion H.
    + intros -> _. cbn [emit]. exists []. eexists. split; [reflexivity |].
      intros d' b' H. inversion H.
    + discriminate.
  - unfold clear_state. cbn [effects text]. split; [| split].
    + intros ->. cbn. intros d b H. inversion H.
    + intros -> _. exists [], "Cleared". split; [reflexivity |].
      intros d' b' H. inversion H.
    + discriminate.
Qed.

Lemma join_head_nonempty sep c x xs : PyStr.join sep (String c x :: xs) <> "".
Proof. rewrite join_cons. destruct xs; simpl; discriminate. Qed.

Lemma build_parts_head v usr stdout error saved count elapsed :
  exists c x xs,
    build_parts fmt_3f v usr stdout error saved count elapsed = String c x :: xs.
Proof.
  unfold build_parts, output_part, error_part, saved_part, time_part.
  destruct (PyStr.truthy stdout); [do 3 eexists; reflexivity |].
  destruct (has_error error); [do 3 eexists; reflexivity |].
  destruct saved; [| do 3 eexists; reflexivity].
  destruct (show_time usr); do 3 eexists; reflexivity.
Qed.

(** X14. No tool call returns an empty text. *)
Theorem reply_never_empty T rq :
  text (serve import_ok worker repr type_name getsizeof fmt_3f T rq) <> Some "".
Proof.
  unfold serve. destruct (what rq) as [code save_vars | |].
  - destruct (_validate (valves T) code) as [|i issues] eqn:Hv.
    + destruct (escapes (obs_outcome (observed import_ok worker T code (who rq)))) eqn:He.
      * rewrite (execute_code_escaped _ _ _ _ _ _ _ _ Hv He). discriminate.
      * rewrite (execute_code_admitted _ _ _ _ _ _ _ _ Hv He). cbn [text].
        match goal with
        | |- context [build_parts ?f ?v ?u ?o ?e ?s ?c ?t] =>
            destruct (build_parts_head v u o e s c t) as [ch [x [xs ->]]]
        end.
        pose proof (join_head_nonempty (PyStr.nl ++ PyStr.nl) ch x xs). congruence.
    + rewrite (execute_code_refused _ _ _ _ _ _ _ _ _ _ Hv). cbn [text]. discriminate.
  - unfold view_state. destruct (_user_state T (_uid (who rq))) as [T1 state].
    destruct state as [|kv state]; cbn [text]; [discriminate |].
    intros H. apply (inj Some) in H. revert H. apply join_head_nonempty.
  - unfold clear_state. cbn [text]. discriminate.
Qed.

End SessionFacts.

Section SessionCounts.
Variable world : Type.
Variable import_ok : string -> bool.
Variable worker : world -> string -> pydict value -> Z -> observation.
Variable leaves : world -> string -> pydict value -> Z -> world.
Variable repr : value -> string.
Variable type_name : value -> string.
Variable getsizeof : value -> Z.
Variable fmt_3f : Q -> string.

Local Abbreviation outcome :=
  (final import_ok worker leaves repr type_name getsizeof fmt_3f).

Lemma final_valves w T rqs : valves (outcome w T rqs) = valves T.
Proof.
  revert w T. induction rqs as [|rq rqs IH]; intros w T; [reflexivity |].
  cbn [final]. rewrite IH. apply serve_valves.
Qed.


End SessionCounts.


(** Three of Alice's calls pass validation and one of them raises
    [SystemExit]: the counter stands at two. *)
Example uncaught_exit_not_counted :
  let exec code := {| who := Demo.alice; sink := false; what := ExecuteCode code "" |} in
  let rqs := [exec "pass"; exec "raise SystemExit(3)"; exec "1/0"] in
  length (filter (fun rq => counted (valves init) "alice" rq = true) rqs) = 3%nat /\
  get_count (Demo.final None init rqs) "alice" = 2%Z.
Proof. cbv zeta. split; vm_compute; reflexivity. Qed.

Lemma variables_survive_witness :
  let T := store (Demo.execute_code init "x = 1; y = 2" "x" Demo.alice false) in
  let rq := {| who := Demo.alice; sink := false;
               what := ExecuteCode "x = 1
while True: pass" "y" |} in
  clears "alice" rq = false /\
  is_Some (PyDict.get "x" (stored T "alice")) /\
  is_Some (PyDict.get "x" (stored (store (Demo.serve T rq)) "alice")).
Proof.
  cbv zeta.
  assert (Hold : is_Some (PyDict.get "x"
            (stored (store (Demo.execute_code init "x = 1; y = 2" "x" Demo.alice false))
                    "alice"))) by (vm_compute; eauto).
  split; [reflexivity |]. split; [exact Hold |].
  apply (variables_survive Demo.import_ok Demo.worker Demo.repr Demo.type_name
           Demo.getsizeof Demo.fmt_3f); [reflexivity | exact Hold].
Defined.

Lemma status_events_close_witness :
  let rq := {| who := None; sink := true; what := ExecuteCode "1/0" "" |} in
  let rq' := {| who := None; sink := true; what := ExecuteCode "raise SystemExit(3)" "" |} in
  sink rq = true /\ is_Some (text (Demo.serve init rq)) /\
  (exists evs d,
     effects (Demo.serve init rq) = (evs ++ [Status d true])%list /\
     forall d' b', Status d' b' ∈ evs -> b' = false) /\
  sink rq' = true /\ text (Demo.serve init rq') = None /\
  exists code ns,
    effects (Demo.serve init rq')
    = [Status "Validating..." false; Status "Running..." false; RunSnippet code ns].
Proof.
  cbv zeta.
  match goal with
  | |- sink ?rq = true /\ _ /\ _ /\ sink ?rq' = true /\ _ =>
      destruct (status_events_close Demo.import_ok Demo.worker Demo.repr Demo.type_name
                  Demo.getsizeof Demo.fmt_3f init rq) as [_ [Hret _]];
      destruct (status_events_close Demo.import_ok Demo.worker Demo.repr Demo.type_name
                  Demo.getsizeof Demo.fmt_3f init rq') as [_ [_ Hraise]]
  end.
  assert (Hsome : is_Some (text (Demo.serve init
            {| who := None; sink := true; what := ExecuteCode "1/0" "" |})))
    by (vm_compute; eauto).
  split; [reflexivity |]. split; [exact Hsome |].
  split; [exact (Hret eq_refl Hsome) |].
  split; [reflexivity |]. split; [vm_compute; reflexivity |].
  apply Hraise; [reflexivity | vm_compute; reflexivity].
Defined.

Example status_events_of_a_failure :
  effects (Demo.serve init {| who := None; sink := true; what := ExecuteCode "1/0" "" |})
  = [Status "Validating..." false; Status "Running..." false;
     RunSnippet "1/0" (namespace_of Demo.import_ok init None);
     Status "Error" true].
Proof. vm_compute. reflexivity. Qed.

Lemma view_state_lists_variable_witness :
  let T := store (Demo.execute_code init "x = 1; y = 2" "x" Demo.alice false) in
  PyDict.get "x" (stored T "alice") = Some (VInt 1) /\
  exists head tail,
    text (Demo.view_state T Demo.alice false)
    = Some (head ++ "| `x` | `int` | 28B | `1` |" ++ tail).
Proof.
  cbv zeta.
  assert (H : PyDict.get "x"
            (stored (store (Demo.execute_code init "x = 1; y = 2" "x" Demo.alice false))
                    (_uid Demo.alice)) = Some (VInt 1)) by (vm_compute; reflexivity).
  split; [exact H |].
  exact (view_state_lists_variable Demo.repr Demo.type_name Demo.getsizeof
           _ Demo.alice false "x" (VInt 1) H).
Defined.

Lemma preview_bounded_witness :
  let long := VStr "the quick brown fox jumps over the lazy dog, and then it does so once more" in
  (60 < String.length (Demo.repr long))%nat /\
  (String.length (preview Demo.repr long) <= 60)%nat /\
  exists shown dropped,
    Demo.repr long = shown ++ dropped /\ String.length shown = 57%nat /\
    preview Demo.repr long = shown ++ "...".
Proof.
  cbv zeta.
  match goal with
  | |- _ /\ (String.length (preview _ ?v) <= 60)%nat /\ _ =>
      destruct (preview_bounded Demo.repr v) as [Hb [_ Hcut]];
      assert (Hlong : (60 < String.length (Demo.repr v))%nat) by (vm_compute; lia)
  end.
  split; [exact Hlong |]. split; [exact Hb |]. exact (Hcut Hlong).
Defined.

(** ** More on the two helpers *)

Lemma join_length_eq sep (c1 c2 : list string) :
  map String.length c1 = map String.length c2 ->
  String.length (PyStr.join sep c1) = String.length (PyStr.join sep c2).
Proof.
  revert c2. induction c1 as [|x xs IH]; intros [|y ys] H; simpl in H;
    try discriminate; [reflexivity |].
  injection H as Hxy Hrest. rewrite !join_cons.
  destruct xs as [|x' xs], ys as [|y' ys]; try discriminate; [exact Hxy |].
  rewrite !length_append, Hxy. f_equal. f_equal. now apply IH.
Qed.

(** X15. The table is rectangular: for any records and any title, the value
    returned is the title line (if a title is given) followed by the table
    lines, and all table lines -- header, rule and rows, also rows of
    records that lack a key -- have the same length. *)
Theorem as_table_rectangular {V : Type} (str : V -> string)
    (data : list (pydict V)) (title : string) :
  data <> [] ->
  fst (_as_table str data title)
    = PyStr.join PyStr.nl
        (title_lines title ++ map table_line (table_cells str data))%list /\
  forall l1 l2,
    l1 ∈ map table_line (table_cells str data) ->
    l2 ∈ map table_line (table_cells str data) ->
    String.length l1 = String.length l2.
Proof.
  intros Hne. split; [destruct data; [congruence | reflexivity] |].
  intros l1 l2 H1 H2.
  apply list_elem_of_In, in_map_iff in H1 as [c1 [<- H1]].
  apply list_elem_of_In, in_map_iff in H2 as [c2 [<- H2]].
  apply list_elem_of_In, (table_cells_lengths str) in H1.
  apply list_elem_of_In, (table_cells_lengths str) in H2.
  unfold table_line. rewrite !length_append. f_equal. f_equal.
  apply join_length_eq. congruence.
Qed.

Lemma as_table_rectangular_witness :
  let data := [[("a", 1%Z); ("bcd", 2%Z)]; [("bcd", 12345%Z)]] in
  data <> [] /\
  forall l, l ∈ map table_line (table_cells (pretty : Z -> string) data) ->
    String.length l = 13%nat.
Proof.
  cbv zeta. split; [discriminate |]. intros l Hl.
  destruct (as_table_rectangular (pretty : Z -> string)
              [[("a", 1%Z); ("bcd", 2%Z)]; [("bcd", 12345%Z)]] "T") as [_ H];
    [discriminate |].
  rewrite (H l "| a | bcd   |" Hl); [reflexivity |]. compute_done.
Defined.

Section StatsFacts.
Context {float : Type}.
Variable truediv : Z -> Z -> option float.

(** X16. The summary does not depend on the order of the numbers. *)
Theorem quick_stats_order_independent (l1 l2 : list Z) :
  l1 ≡ₚ l2 -> _quick_stats truediv l1 = _quick_stats truediv l2.
Proof.
  intros Hp.
  assert (Hs : sorted l1 = sorted l2).
  { apply (Sorted_unique Z.le); [apply sorted_Sorted | apply sorted_Sorted |].
    now rewrite !sorted_Permutation. }
  destruct l1 as [|x xs], l2 as [|y ys].
  - reflexivity.
  - apply Permutation_nil_l in Hp. discriminate.
  - apply Permutation_nil_r in Hp. discriminate.
  - unfold _quick_stats. now rewrite Hs.
Qed.

(** Least and greatest element of the sorted list, against any element. *)
Lemma sorted_ends (numbers : list Z) (j : nat) (x : Z) :
  sorted numbers !! j = Some x ->
  (at_index (sorted numbers) 0 <= x
   <= at_index (sorted numbers) (length (sorted numbers) - 1))%Z.
Proof.
  intros Hj. pose proof (lookup_lt_Some _ _ _ Hj) as Hlt.
  pose proof (sorted_Sorted numbers) as Hs. split.
  - apply (sorted_lookup_le (sorted numbers) 0 j); [exact Hs | lia | | exact Hj].
    apply at_index_lookup. lia.
  - apply (sorted_lookup_le (sorted numbers) j (length (sorted numbers) - 1));
      [exact Hs | lia | exact Hj |].
    apply at_index_lookup. lia.
Qed.

(** The median entry, by the parity of the length. *)
Lemma median_cases (s : list Z) (k : nat) :
  (length s = (2 * k + 1)%nat ->
     s !! k = Some (at_index s k) /\ median truediv s = Some (Int (at_index s k))) /\
  (length s = (2 * k)%nat -> (0 < k)%nat ->
     s !! (k - 1)%nat = Some (at_index s (k - 1)) /\ s !! k = Some (at_index s k) /\
     median truediv s = Float <$> truediv (at_index s (k - 1) + at_index s k) 2).
Proof.
  unfold median. split.
  - intros Hk. rewrite Hk. destruct (half_odd k) as [-> ->].
    split; [apply at_index_lookup; lia | reflexivity].
  - intros Hk Hpos. rewrite Hk. destruct (half_even k) as [-> ->].
    split; [apply at_index_lookup; lia |]. split; [apply at_index_lookup; lia |].
    reflexivity.
Qed.

(** X17. On a non-empty list of integers [_quick_stats] either raises,
    which it does exactly when one of its two divisions raises, or returns
    six entries in the order count, sum, mean, min, max, median.  The count
    is the length of the list, the sum its total, the minimum and the
    maximum are elements of the list that bound every element, the mean is
    what [/] gives for the sum over the count, and the median is the middle
    element of the sorted list when the count is odd and what [/] gives for
    the sum of the two middle elements over two when it is even. *)
Theorem quick_stats_entries (numbers : list Z) :
  numbers <> [] ->
  let s := sorted numbers in
  let n := length numbers in
  Sorted Z.le s /\ s ≡ₚ numbers /\
  match _quick_stats truediv numbers with
  | Some qs =>
      exists (mean : float) (lo hi : Z) (med : number float),
        qs = [("count", Int (Z.of_nat n)); ("sum", Int (total numbers));
              ("mean", Float mean); ("min", Int lo); ("max", Int hi);
              ("median", med)] /\
        truediv (total numbers) (Z.of_nat n) = Some mean /\
        lo ∈ numbers /\ hi ∈ numbers /\
        (forall x, x ∈ numbers -> (lo <= x <= hi)%Z) /\
        (forall k, n = (2 * k + 1)%nat ->
           exists m, s !! k = Some m /\ med = Int m) /\
        (forall k, n = (2 * k)%nat ->
           exists a b q, s !! (k - 1)%nat = Some a /\ s !! k = Some b /\
             truediv (a + b) 2 = Some q /\ med = Float q)
  | None =>
      truediv (total numbers) (Z.of_nat n) = None \/
      exists k a b, n = (2 * k)%nat /\ s !! (k - 1)%nat = Some a /\ s !! k = Some b /\
        truediv (a + b) 2 = None
  end.
Proof.
  intros Hne. cbv zeta. set (s := sorted numbers).
  pose proof (sorted_Sorted numbers) as Hsorted. fold s in Hsorted.
  pose proof (sorted_Permutation numbers) as Hperm. fold s in Hperm.
  assert (Hlen : length s = length numbers) by now rewrite Hperm.
  assert (Hpos : (0 < length numbers)%nat).
  { destruct numbers; [congruence | simpl; lia]. }
  split; [exact Hsorted |]. split; [exact Hperm |].
  assert (Hqs : _quick_stats truediv numbers =
                mean ← truediv (total numbers) (Z.of_nat (length numbers));
                med ← median truediv s;
                Some [("count", Int (Z.of_nat (length numbers)));
                      ("sum", Int (total numbers)); ("mean", Float mean);
                      ("min", Int (at_index s 0));
                      ("max", Int (at_index s (length numbers - 1)));
                      ("median", med)]).
  { destruct numbers as [|x xs]; [congruence |]. unfold _quick_stats. fold s.
    now rewrite sum_total, (total_Permutation _ _ Hperm), Hlen. }
  rewrite Hqs.
  destruct (truediv (total numbers) (Z.of_nat (length numbers))) as [mean|];
    cbn [mbind option_bind]; [| now left].
  destruct (Nat.Even_or_Odd (length numbers)) as [[k Hk] | [k Hk]].
  - destruct (proj2 (median_cases s k)) as (Ha & Hb & Hmed); [lia | lia |].
    rewrite Hmed.
    destruct (truediv (at_index s (k - 1) + at_index s k) 2) as [q|] eqn:Hq;
      cbn [fmap option_fmap option_map mbind option_bind].
    + exists mean, (at_index s 0), (at_index s (length numbers - 1)), (Float q).
      split; [reflexivity |]. split; [reflexivity |]. rewrite <- Hlen.
      split; [| split; [| split; [| split]]].
      * rewrite <- Hperm. eapply list_elem_of_lookup_2. apply at_index_lookup. lia.
      * rewrite <- Hperm. eapply list_elem_of_lookup_2. apply at_index_lookup. lia.
      * intros x Hx. rewrite <- Hperm in Hx.
        apply list_elem_of_lookup_1 in Hx as [j Hj]. exact (sorted_ends numbers j x Hj).
      * intros k' Hk'. lia.
      * intros k' Hk'. assert (k' = k) as -> by lia.
        exists (at_index s (k - 1)), (at_index s k), q. auto.
    + right. exists k, (at_index s (k - 1)), (at_index s k). auto.
  - destruct (proj1 (median_cases s k)) as (Hm & Hmed); [lia |].
    rewrite Hmed. cbn [mbind option_bind].
    exists mean, (at_index s 0), (at_index s (length numbers - 1)), (Int (at_index s k)).
    split; [reflexivity |]. split; [reflexivity |]. rewrite <- Hlen.
    split; [| split; [| split; [| split]]].
    + rewrite <- Hperm. eapply list_elem_of_lookup_2. apply at_index_lookup. lia.
    + rewrite <- Hperm. eapply list_elem_of_lookup_2. apply at_index_lookup. lia.
    + intros x Hx. rewrite <- Hperm in Hx.
      apply list_elem_of_lookup_1 in Hx as [j Hj]. exact (sorted_ends numbers j x Hj).
    + intros k' Hk'. assert (k' = k) as -> by lia. eauto.
    + intros k' Hk'. lia.
Qed.

End StatsFacts.

Lemma quick_stats_order_independent_witness :
  [3; 1; 2]%Z ≡ₚ [2; 3; 1]%Z /\
  forall (float : Type) (truediv : Z -> Z -> option float),
    _quick_stats truediv [3; 1; 2]%Z = _quick_stats truediv [2; 3; 1]%Z.
Proof.
  assert (H : [3; 1; 2]%Z ≡ₚ [2; 3; 1]%Z).
  { apply (Permutation_app_comm [3; 1]%Z [2]%Z). }
  split; [exact H |]. intros float truediv.
  exact (quick_stats_order_independent truediv _ _ H).
Defined.

(** With a [/] that answers [2.0] for [6 / 3], and with one that raises. *)
Lemma quick_stats_entries_witness :
  let numbers := [3; 1; 2]%Z in
  numbers <> [] /\
  forall (float : Type) (two : float),
    (exists lo hi,
       _quick_stats (fun a b => if decide ((a, b) = (6, 3)%Z) then Some two else None)
                    numbers
       = Some [("count", Int 3); ("sum", Int 6); ("mean", Float two);
               ("min", Int lo); ("max", Int hi); ("median", Int 2)] /\
       lo ∈ numbers /\ hi ∈ numbers /\
       forall x, x ∈ numbers -> (lo <= x <= hi)%Z) /\
    _quick_stats (fun _ _ => @None float) numbers = None.
Proof.
  cbv zeta. split; [discriminate |]. intros float two. split.
  - pose proof (quick_stats_entries
                  (fun a b => if decide ((a, b) = (6, 3)%Z) then Some two else None)
                  [3; 1; 2]%Z ltac:(discriminate)) as H.
    cbv zeta in H. destruct H as (_ & _ & H).
    change (_quick_stats _ [3; 1; 2]%Z)
      with (Some [("count", @Int float 3); ("sum", Int 6); ("mean", Float two);
                  ("min", Int 1); ("max", Int 3); ("median", Int 2)]) in H.
    destruct H as (mean & lo & hi & med & Hqs & _ & Hlo & Hhi & Hb & _).
    exists lo, hi. injection Hqs as <- <- <- <-.
    split; [reflexivity |]. split; [exact Hlo |]. split; [exact Hhi | exact Hb].
  - reflexivity.
Defined.

(** ** Exceptions *)

Section Exceptions.
Variable import_ok : string -> bool.
Variable worker : string -> pydict value -> Z -> observation.
Variable fmt_3f : Q -> string.

(** X18. When the snippet raises, the text returned carries the error block
    with the trace, and, if a sink was passed, the closing status event
    reads "Error". *)
Theorem execute_code_reports_exception T code save_vars usr em trace :
  _validate (valves T) code = [] ->
  obs_outcome (observed import_ok worker T code usr) = Raised trace ->
  trace <> "" ->
  let r := execute_code import_ok worker fmt_3f T code save_vars usr em in
  (exists head tail,
      text r = Some (head ++ ("**Error:**" ++ PyStr.nl ++ "```" ++ PyStr.nl ++ trace
                                ++ PyStr.nl ++ "```") ++ tail)) /\
  (em = true -> exists evs, effects r = (evs ++ [Status "Error" true])%list).
Proof.
  intros Hv Ho Hne. cbv zeta.
  assert (He : escapes (obs_outcome (observed import_ok worker T code usr)) = false)
    by now rewrite Ho.
  rewrite (execute_code_admitted _ _ _ _ _ _ _ _ Hv He). cbn [text effects]. rewrite Ho.
  assert (Herr : has_error (error_of (valves T) (Raised trace)) = true)
    by (cbn; now apply truthy_nonempty).
  split.
  - apply join_within. unfold build_parts. set (parts := (_ ++ _)%list).
    assert (Hin : ("**Error:**" ++ PyStr.nl ++ "```" ++ PyStr.nl ++ trace
                     ++ PyStr.nl ++ "```") ∈ parts).
    { unfold parts. rewrite !elem_of_app. right. left.
      unfold error_part. rewrite Herr. apply list_elem_of_singleton. reflexivity. }
    destruct parts; [inversion Hin | exact Hin].
  - intros ->. unfold done_label. rewrite Herr. eexists. reflexivity.
Qed.

End Exceptions.

Lemma execute_code_reports_exception_witness :
  let trace := "ZeroDivisionError: division by zero" in
  let r := Demo.execute_code init "1/0" "" None true in
  _validate (valves init) "1/0" = [] /\
  obs_outcome (observed Demo.import_ok Demo.worker init "1/0" None) = Raised trace /\
  trace <> "" /\
  (exists head tail,
      text r = Some (head ++ ("**Error:**" ++ PyStr.nl ++ "```" ++ PyStr.nl ++ trace
                                ++ PyStr.nl ++ "```") ++ tail)) /\
  exists evs, effects r = (evs ++ [Status "Error" true])%list.
Proof.
  cbv zeta.
  assert (Hv : _validate (valves init) "1/0" = []) by (vm_compute; reflexivity).
  assert (Ho : obs_outcome (observed Demo.import_ok Demo.worker init "1/0" None)
               = Raised "ZeroDivisionError: division by zero") by (vm_compute; reflexivity).
  split; [exact Hv |]. split; [exact Ho |]. split; [discriminate |].
  destruct (execute_code_reports_exception Demo.import_ok Demo.worker Demo.fmt_3f init
              "1/0" "" None true _ Hv Ho ltac:(discriminate)) as [Ht He].
  split; [exact Ht | exact (He eq_refl)].
Defined.
